(** * The portfolio chat assistant: knowledge base, keyword matcher, widget

    A shallow embedding of [src/app/components/ChatWidget.tsx] together with
    the part of [src/app/data/index.ts] it imports.

    - JavaScript strings are [string]s (the UTF-8 bytes of the text).  The
      keywords are ASCII, so a keyword occurs in the bytes exactly when it
      occurs in the UTF-16 code units.  [toLowerCase] and [trim] depend on
      the Unicode tables; they are the methods of the class [JSString],
      fixed on ASCII text and otherwise left open.
    - A field that may be absent is an [option]; [None] is [undefined].
      Skill levels are integers; a year is the text that is displayed.
    - The object [kb : Record<string, string>] is a [gmap string string];
      reading a key that was never written gives [None], i.e. [undefined].
    - An exception is the [Throw] case of [result].
    - The React component is a record of its hook values plus the browser's
      timer table and clock; handlers, effects and timer callbacks are
      programs in a small state monad over that record.  A state setter
      called while the component is not mounted has no effect, as in React;
      timers run in the order the HTML standard allows. *)

From Stdlib Require Import ZArith Ascii String Sorted.
From stdpp Require Import strings gmap list pretty sorting.

Local Open Scope Z_scope.
Set Warnings "-clear-no-such-hyp".

(** ** Strings *)

(** [String.prototype.includes]: [w] occurs in [s] as a contiguous substring. *)
Fixpoint includes (s w : string) : bool :=
  String.prefix w s ||
  match s with
  | EmptyString => false
  | String _ s' => includes s' w
  end.

Definition is_ascii_char (c : ascii) : bool := (N_of_ascii c <? 128)%N.

Fixpoint is_ascii (s : string) : bool :=
  match s with
  | EmptyString => true
  | String c s' => is_ascii_char c && is_ascii s'
  end.

Definition ascii_lower_char (c : ascii) : ascii :=
  let n := N_of_ascii c in
  if ((65 <=? n) && (n <=? 90))%N then ascii_of_N (n + 32) else c.

Fixpoint ascii_toLowerCase (s : string) : string :=
  match s with
  | EmptyString => EmptyString
  | String c s' => String (ascii_lower_char c) (ascii_toLowerCase s')
  end.

(** The ASCII members of ECMAScript's WhiteSpace and LineTerminator:
    TAB, LF, VT, FF, CR and SP. *)
Definition is_ascii_space (c : ascii) : bool :=
  let n := N_of_ascii c in
  (((9 <=? n) && (n <=? 13)) || (n =? 32))%N.

Fixpoint ascii_trimStart (s : string) : string :=
  match s with
  | EmptyString => EmptyString
  | String c s' => if is_ascii_space c then ascii_trimStart s' else s
  end.

Fixpoint ascii_trimEnd (s : string) : string :=
  match s with
  | EmptyString => EmptyString
  | String c s' =>
      match ascii_trimEnd s' with
      | EmptyString => if is_ascii_space c then EmptyString else String c EmptyString
      | r => String c r
      end
  end.

Definition ascii_trim (s : string) : string := ascii_trimEnd (ascii_trimStart s).

(** The two string methods whose full definition depends on the Unicode
    tables.  Everything below is written against this interface; the laws
    fix the methods on ASCII text, where ECMAScript leaves no freedom. *)
Class JSString := {
  toLowerCase : string → string;
  trim : string → string;
  toLowerCase_ascii s : is_ascii s = true → toLowerCase s = ascii_toLowerCase s;
  trim_ascii s : is_ascii s = true → trim s = ascii_trim s;
}.

(** The instance that extends the ASCII behaviour to every byte string. *)
#[export] Instance ascii_strings : JSString := {|
  toLowerCase := ascii_toLowerCase;
  trim := ascii_trim;
  toLowerCase_ascii := λ _ _, eq_refl;
  trim_ascii := λ _ _, eq_refl;
|}.

(** ** JavaScript values of the snapshot *)

(** Truthiness of a string-or-undefined value. *)
Definition truthy (v : option string) : bool :=
  match v with
  | Some s => negb (String.eqb s "")
  | None => false
  end.

(** [a || b] *)
Definition js_or (a b : option string) : option string :=
  if truthy a then a else b.

(** [a || 'literal'] *)
Definition js_or_else (a : option string) (d : string) : string :=
  match a with
  | Some s => if truthy a then s else d
  | None => d
  end.

(** [a ?? 'literal'] *)
Definition js_nullish (a : option string) (d : string) : string := default d a.

(** A value interpolated in a template literal: [`${v}`]. *)
Definition template (v : option string) : string := default "undefined" v.

(** [Number.prototype.toString] on an integer. *)
Definition Number_toString (n : Z) : string := pretty n.

Definition template_num (v : option Z) : string :=
  match v with
  | Some n => Number_toString n
  | None => "undefined"
  end.

(** [Array.prototype.join]: [undefined] elements are joined as the empty string. *)
Definition join (sep : string) (l : list (option string)) : string :=
  String.concat sep (map (default "") l).

Inductive JSError := TypeError.

Inductive result (A : Type) :=
  | Ok (a : A)
  | Throw (e : JSError).
Arguments Ok {A} a.
Arguments Throw {A} e.

Definition rbind {A B} (m : result A) (k : A → result B) : result B :=
  match m with
  | Ok a => k a
  | Throw e => Throw e
  end.

Notation "'let?' x := m 'in' k" := (rbind m (fun x => k))
  (at level 10, x pattern, m at level 100, k at level 200).

(** ** The data module, [src/app/data/index.ts] *)

Module Hero.
Record t := mk { name : option string; email : option string; location : option string }.
End Hero.

Module Contact.
Record t := mk { email : option string; phone : option string; location : option string }.
Definition empty : t := mk None None None.
End Contact.

Module Skill.
Record t := mk { name : option string; level : option Z }.
End Skill.

Module Experience.
Record t := mk { role : option string; company : option string; period : option string }.
End Experience.

Module Project.
Record t := mk { title : option string }.
End Project.

Module Education.
Record t := mk { degree : option string; institution : option string; year : option string }.
End Education.

(** [portfolio.json], as far as the assistant reads it. *)
Module Raw.
Record t := mk {
  hero : option Hero.t;
  contact : option Contact.t;
  skills : option (list Skill.t);
  projects : option (list Project.t);
  experiences : option (list Experience.t);
  education : option (list Education.t);
}.
End Raw.

(** The exports of the data module: collections default to [[]], [contact]
    to [{}], and [hero] is exported as it is. *)
Module Data.
Definition hero (raw : Raw.t) : option Hero.t := Raw.hero raw.
Definition projects (raw : Raw.t) : list Project.t := default [] (Raw.projects raw).
Definition skills (raw : Raw.t) : list Skill.t := default [] (Raw.skills raw).
Definition experiences (raw : Raw.t) : list Experience.t := default [] (Raw.experiences raw).
(* [.map(e => ({...e, icon: ...}))] keeps every field read below *)
Definition education (raw : Raw.t) : list Education.t := default [] (Raw.education raw).
Definition contact (raw : Raw.t) : Contact.t := default Contact.empty (Raw.contact raw).
End Data.

(** ** [buildKnowledgeBase] *)

(** [arr && arr.length] in a condition. *)
Definition has_length {A} (l : list A) : bool :=
  match l with [] => false | _ :: _ => true end.

(** [hero.location]: a member access without optional chaining. *)
Definition hero_location (h : option Hero.t) : result (option string) :=
  match h with
  | Some h => Ok (Hero.location h)
  | None => Throw TypeError
  end.

(** [hero?.location] *)
Definition hero_location_opt (h : option Hero.t) : option string :=
  h ≫= Hero.location.

(** [hero?.name] *)
Definition hero_name_opt (h : option Hero.t) : option string :=
  h ≫= Hero.name.

Definition skills_text (skills : list Skill.t) : string :=
  if has_length skills
  then "Top skills: " +:+
       String.concat ", "
         (map (λ s, template (Skill.name s) +:+ " (" +:+ template_num (Skill.level s) +:+ "%)")
              (take 8 skills)) +:+ "."
  else "Skills information is not available.".

Definition experience_text (experiences : list Experience.t) : string :=
  if has_length experiences
  then String.concat "; "
         (map (λ e, template (Experience.role e) +:+ " at " +:+
                    template (Experience.company e) +:+ " (" +:+
                    template (Experience.period e) +:+ ")")
              experiences)
  else "Experience information is not available.".

Definition projects_text (projects : list Project.t) : string :=
  if has_length projects
  then "Projects: " +:+ join "; " (map Project.title (take 6 projects)) +:+ "."
  else "Project information is not available.".

Definition education_text (education : list Education.t) : string :=
  if has_length education
  then String.concat "; "
         (map (λ ed, template (Education.degree ed) +:+ " — " +:+
                     template (Education.institution ed) +:+ " (" +:+
                     js_or_else (Education.year ed) "" +:+ ")")
              education)
  else "Education information is not available.".

Definition contact_text (contact : Contact.t) (hero : option Hero.t) : result string :=
  if truthy (js_or (Contact.email contact) (Contact.phone contact))
  then
    let who :=
      if truthy (Contact.email contact)
      then template (Contact.email contact) +:+
           (if truthy (Contact.phone contact)
            then " | " +:+ template (Contact.phone contact) else "")
      else template (Contact.phone contact) in
    let? loc :=
      (if truthy (Contact.location contact)
       then Ok (Contact.location contact)
       else hero_location hero) in
    Ok ("Contact: " +:+ who +:+ ". Location: " +:+ js_or_else loc "N/A")
  else Ok "Contact information is not available.".

Definition location_text (contact : Contact.t) (hero : option Hero.t) : string :=
  js_or_else (js_or (Contact.location contact) (hero_location_opt hero)) "Location not set.".

Definition technologies_text (skills : list Skill.t) : string :=
  if has_length skills
  then join ", " (map Skill.name skills)
  else "Technologies not listed.".

Definition availability_text (contact : Contact.t) : string :=
  if truthy (Contact.email contact)
  then "Reach out via " +:+ template (Contact.email contact) +:+ " for opportunities."
  else "Availability information not available.".

Definition strengths_text (skills : list Skill.t) : string :=
  if has_length skills
  then "Strengths include " +:+ join ", " (map Skill.name (take 4 skills)) +:+ "."
  else "Strengths not available.".

Definition interests_text : string :=
  "Passionate about automation, AI, and building reliable systems.".

Definition buildKnowledgeBase (raw : Raw.t) : result (gmap string string) :=
  let kb : gmap string string := ∅ in
  let kb := <["skills" := skills_text (Data.skills raw)]> kb in
  let kb := <["experience" := experience_text (Data.experiences raw)]> kb in
  let kb := <["projects" := projects_text (Data.projects raw)]> kb in
  let kb := <["education" := education_text (Data.education raw)]> kb in
  let? c := contact_text (Data.contact raw) (Data.hero raw) in
  let kb := <["contact" := c]> kb in
  let kb := <["location" := location_text (Data.contact raw) (Data.hero raw)]> kb in
  let kb := <["technologies" := technologies_text (Data.skills raw)]> kb in
  let kb := <["availability" := availability_text (Data.contact raw)]> kb in
  let kb := <["strengths" := strengths_text (Data.skills raw)]> kb in
  let kb := <["interests" := interests_text]> kb in
  Ok kb.

(** ** [findBestMatch] *)

(** The keyword table, in the order [Object.entries] enumerates it. *)
Definition keywords : list (string * list string) :=
  [ ("skills", ["skill"; "technology"; "tech"; "know"; "proficient"; "good at"; "expertise"]);
    ("experience", ["work"; "job"; "experience"; "company"; "worked"; "career"; "employment"]);
    ("projects", ["project"; "built"; "created"; "portfolio"; "work"; "developed"]);
    ("education", ["education"; "degree"; "study"; "university"; "learn"; "course"]);
    ("contact", ["contact"; "reach"; "email"; "connect"; "get in touch"; "hire"]);
    ("location", ["location"; "where"; "based"; "live"; "city"]);
    ("availability", ["available"; "hire"; "hiring"; "looking"; "job"]);
    ("technologies", ["use"; "stack"; "tools"; "framework"; "library"]);
    ("strengths", ["strength"; "good"; "best"; "achievement"]);
    ("interests", ["interest"; "hobby"; "passion"; "like"; "enjoy"]) ].

Definition topics : list string := map fst keywords.

Definition fallback : string :=
  "I'd be happy to tell you more! You can ask me about my skills, experience, projects, education, contact information, or availability. What would you like to know?".

(** The [for ... of] loop with its early [return]. *)
Fixpoint scan (lowerQuery : string) (kb : gmap string string)
    (entries : list (string * list string)) : option string :=
  match entries with
  | [] => Some fallback
  | (topic, words) :: rest =>
      if existsb (λ word, includes lowerQuery word) words
      then kb !! topic
      else scan lowerQuery kb rest
  end.

Definition findBestMatch `{JSString} (query : string) (kb : gmap string string)
    : option string :=
  let lowerQuery := toLowerCase query in
  scan lowerQuery kb keywords.

(** ** The component [ChatWidget] *)

Inductive Sender := user | bot.

Module Message.
Record t := mk {
  id : string;
  text : option string;
  sender : Sender;
  timestamp : Z;
}.
End Message.

(** The three closures handed to [setTimeout]; the reply closure captures
    the [inputValue] of the render in which [handleSend] ran. *)
Inductive Callback :=
  | HintExpire
  | OrnamentReveal
  | Reply (inputValue : string).

Module Timer.
Record t := mk {
  handle : nat;
  timeout : Z;
  due : Z;
  callback : Callback;
}.
End Timer.

Inductive Phase := Fresh | Mounted | Unmounted.

Record Widget := mkWidget {
  phase : Phase;
  (* useMemo *)
  knowledgeBase : gmap string string;
  (* useState *)
  isOpen : bool;
  showHint : bool;
  showOrnaments : bool;
  messages : list Message.t;
  inputValue : string;
  isTyping : bool;
  (* useRef *)
  hintTimerRef : option nat;
  (* the variable [t] captured by the cleanup of the open/close effect *)
  ornamentT : option nat;
  (* window: the clock read by [Date.now] and the table of live timers,
     in creation order *)
  now : Z;
  nextHandle : nat;
  timers : list Timer.t;
}.

Definition M (A : Type) : Type := Widget → A * Widget.

#[export] Instance M_ret : MRet M := λ A a w, (a, w).
#[export] Instance M_bind : MBind M := λ A B k m w, let '(a, w') := m w in k a w'.

Definition exec {A} (m : M A) (w : Widget) : Widget := (m w).2.

Definition gets {A} (f : Widget → A) : M A := λ w, (f w, w).
Definition modify (f : Widget → Widget) : M unit := λ w, (tt, f w).

(** A state setter of [useState]: React drops the update unless the
    component is mounted. *)
Definition setState (f : Widget → Widget) : M unit :=
  λ w, (tt, match phase w with Mounted => f w | _ => w end).

Definition with_phase (p : Phase) (w : Widget) : Widget :=
  mkWidget p (knowledgeBase w) (isOpen w) (showHint w) (showOrnaments w) (messages w)
    (inputValue w) (isTyping w) (hintTimerRef w) (ornamentT w) (now w) (nextHandle w) (timers w).
Definition with_knowledgeBase (kb : gmap string string) (w : Widget) : Widget :=
  mkWidget (phase w) kb (isOpen w) (showHint w) (showOrnaments w) (messages w)
    (inputValue w) (isTyping w) (hintTimerRef w) (ornamentT w) (now w) (nextHandle w) (timers w).
Definition with_isOpen (v : bool) (w : Widget) : Widget :=
  mkWidget (phase w) (knowledgeBase w) v (showHint w) (showOrnaments w) (messages w)
    (inputValue w) (isTyping w) (hintTimerRef w) (ornamentT w) (now w) (nextHandle w) (timers w).
Definition with_showHint (v : bool) (w : Widget) : Widget :=
  mkWidget (phase w) (knowledgeBase w) (isOpen w) v (showOrnaments w) (messages w)
    (inputValue w) (isTyping w) (hintTimerRef w) (ornamentT w) (now w) (nextHandle w) (timers w).
Definition with_showOrnaments (v : bool) (w : Widget) : Widget :=
  mkWidget (phase w) (knowledgeBase w) (isOpen w) (showHint w) v (messages w)
    (inputValue w) (isTyping w) (hintTimerRef w) (ornamentT w) (now w) (nextHandle w) (timers w).
Definition with_messages (v : list Message.t) (w : Widget) : Widget :=
  mkWidget (phase w) (knowledgeBase w) (isOpen w) (showHint w) (showOrnaments w) v
    (inputValue w) (isTyping w) (hintTimerRef w) (ornamentT w) (now w) (nextHandle w) (timers w).
Definition with_inputValue (v : string) (w : Widget) : Widget :=
  mkWidget (phase w) (knowledgeBase w) (isOpen w) (showHint w) (showOrnaments w) (messages w)
    v (isTyping w) (hintTimerRef w) (ornamentT w) (now w) (nextHandle w) (timers w).
Definition with_isTyping (v : bool) (w : Widget) : Widget :=
  mkWidget (phase w) (knowledgeBase w) (isOpen w) (showHint w) (showOrnaments w) (messages w)
    (inputValue w) v (hintTimerRef w) (ornamentT w) (now w) (nextHandle w) (timers w).
Definition with_hintTimerRef (v : option nat) (w : Widget) : Widget :=
  mkWidget (phase w) (knowledgeBase w) (isOpen w) (showHint w) (showOrnaments w) (messages w)
    (inputValue w) (isTyping w) v (ornamentT w) (now w) (nextHandle w) (timers w).
Definition with_ornamentT (v : option nat) (w : Widget) : Widget :=
  mkWidget (phase w) (knowledgeBase w) (isOpen w) (showHint w) (showOrnaments w) (messages w)
    (inputValue w) (isTyping w) (hintTimerRef w) v (now w) (nextHandle w) (timers w).
Definition with_now (v : Z) (w : Widget) : Widget :=
  mkWidget (phase w) (knowledgeBase w) (isOpen w) (showHint w) (showOrnaments w) (messages w)
    (inputValue w) (isTyping w) (hintTimerRef w) (ornamentT w) v (nextHandle w) (timers w).
Definition with_timers (n : nat) (v : list Timer.t) (w : Widget) : Widget :=
  mkWidget (phase w) (knowledgeBase w) (isOpen w) (showHint w) (showOrnaments w) (messages w)
    (inputValue w) (isTyping w) (hintTimerRef w) (ornamentT w) (now w) n v.

Definition setIsOpen_state (v : bool) : M unit := setState (with_isOpen v).
Definition setShowHint (v : bool) : M unit := setState (with_showHint v).
Definition setShowOrnaments (v : bool) : M unit := setState (with_showOrnaments v).
Definition setMessages (f : list Message.t → list Message.t) : M unit :=
  setState (λ w, with_messages (f (messages w)) w).
Definition setInputValue (v : string) : M unit := setState (with_inputValue v).
Definition setIsTyping (v : bool) : M unit := setState (with_isTyping v).

(** *** The window's timers *)

Definition Date_now : M Z := gets now.

(** [window.setTimeout(cb, ms)]: a fresh handle; the timer joins the table. *)
Definition setTimeout (cb : Callback) (ms : Z) : M nat :=
  λ w, let h := nextHandle w in
       (h, with_timers (S h) (timers w ++ [Timer.mk h ms (now w + ms) cb]) w).

Definition remove_timer (h : nat) (l : list Timer.t) : list Timer.t :=
  filter (λ t, Timer.handle t ≠ h) l.

(** [window.clearTimeout(h)] *)
Definition clearTimeout (h : nat) : M unit :=
  modify (λ w, with_timers (nextHandle w) (remove_timer h (timers w)) w).

(** [if (ref) window.clearTimeout(ref)] for a handle that is a number,
    [null] or [undefined]: zero is falsy too. *)
Definition clear_if_truthy (r : option nat) : M unit :=
  match r with
  | Some (S _ as h) => clearTimeout h
  | _ => mret tt
  end.

Section Component.
Context `{JSString}.

(** The snapshot the data module was loaded from. *)
Variable raw : Raw.t.

(** *** First render: the [useState] initialisers *)

Definition greeting (t : Z) : Message.t :=
  Message.mk "1"
    (Some ("Hi! 👋 I'm " +:+ js_nullish (hero_name_opt (Data.hero raw)) "Ankush" +:+
           "'s AI assistant. Ask me anything about skills, experience, projects, or contact details."))
    bot t.

(** *** Effects *)

(** [useEffect(..., [])]: show the hint for five seconds. *)
Definition hintEffect : M unit :=
  setShowHint true;;
  h ← setTimeout HintExpire 5000;
  modify (with_hintTimerRef (Some h)).

Definition hintCleanup : M unit :=
  r ← gets hintTimerRef;
  clear_if_truthy r.

(** [useEffect(..., [isOpen])]: defer the ornaments after opening. *)
Definition ornamentEffect : M unit :=
  modify (with_ornamentT None);;
  open ← gets isOpen;
  if open : bool then
    t ← setTimeout OrnamentReveal 250;
    modify (with_ornamentT (Some t))
  else
    setShowOrnaments false.

Definition ornamentCleanup : M unit :=
  t ← gets ornamentT;
  clear_if_truthy t.

(** [useEffect(..., [isOpen])]: focus the input, hide the hint on open. *)
Definition focusEffect : M unit :=
  open ← gets isOpen;
  hint ← gets showHint;
  if (open && hint : bool) then
    setShowHint false;;
    r ← gets hintTimerRef;
    match r with
    | Some (S _ as h) =>
        clearTimeout h;;
        modify (with_hintTimerRef None)
    | _ => mret tt
    end
  else mret tt.

(** *** Handlers and timer callbacks *)

Definition handleSend : M unit :=
  inputValue ← gets inputValue;
  if String.eqb (trim inputValue) "" then mret tt
  else
    t ← Date_now;
    let userMessage := Message.mk (Number_toString t) (Some inputValue) user t in
    setMessages (λ prev, prev ++ [userMessage]);;
    setInputValue "";;
    setIsTyping true;;
    _ ← setTimeout (Reply inputValue) 800;
    mret tt.

Definition run_callback (cb : Callback) : M unit :=
  match cb with
  | HintExpire => setShowHint false
  | OrnamentReveal => setShowOrnaments true
  | Reply inputValue =>
      kb ← gets knowledgeBase;
      let response := findBestMatch inputValue kb in
      t ← Date_now;
      let botMessage := Message.mk (Number_toString (t + 1)) response bot t in
      setMessages (λ prev, prev ++ [botMessage]);;
      setIsTyping false
  end.

(** [setIsOpen(v)] followed by the render it causes: nothing happens when
    the value is unchanged; otherwise the cleanup of the effects that
    depend on [isOpen] runs, then those effects, in declaration order. *)
Definition setIsOpen (v : bool) : M unit :=
  open ← gets isOpen;
  if bool_decide (open = v) then mret tt
  else
    setIsOpen_state v;;
    ornamentCleanup;;
    ornamentEffect;;
    focusEffect.

(** The first render: [useMemo] holds the knowledge base, every [useState]
    and [useRef] its initial value. *)
Definition first_render (kb : gmap string string) (w : Widget) : Widget :=
  mkWidget Mounted kb false false false [greeting (now w)] "" false None None
    (now w) (nextHandle w) (timers w).

(** Mounting: the first render, then every effect once. *)
Definition mount (kb : gmap string string) : M unit :=
  modify (first_render kb);;
  hintEffect;;
  ornamentEffect;;
  focusEffect.

(** Unmounting: every cleanup once, in declaration order. *)
Definition unmount : M unit :=
  hintCleanup;;
  ornamentCleanup;;
  modify (with_phase Unmounted).

(** *** The event loop *)

(** A timer may run once it is due and no timer created before it with an
    equal or shorter timeout is still waiting (the ordering the HTML
    standard gives to [setTimeout]). *)
Definition blocks (t t' : Timer.t) : bool :=
  bool_decide (Timer.handle t' < Timer.handle t)%nat &&
  bool_decide (Timer.timeout t' ≤ Timer.timeout t).

Definition runnable (w : Widget) (t : Timer.t) : bool :=
  bool_decide (Timer.due t ≤ now w) && negb (existsb (blocks t) (timers w)).

Definition find_timer (h : nat) (l : list Timer.t) : option Timer.t :=
  List.find (λ t, bool_decide (Timer.handle t = h)) l.

Inductive Event :=
  | Mount
  | Unmount
  | SetIsOpen (v : bool)    (* backdrop and minimise button: [false] *)
  | Toggle                  (* floating button: [setIsOpen(!isOpen)] *)
  | Change (value : string) (* [onChange] of the input *)
  | Send                    (* send button, or Enter in the input *)
  | Fire (h : nat)          (* the timer with handle [h] runs *)
  | Advance (d : Z).        (* [d] milliseconds pass *)

(** One turn of the event loop; [None] when the event cannot happen in
    this state (or, for [Mount], when the first render throws). *)
Definition step (ev : Event) (w : Widget) : option Widget :=
  match ev with
  | Mount =>
      match phase w, buildKnowledgeBase raw with
      | Fresh, Ok kb => Some (exec (mount kb) w)
      | _, _ => None
      end
  | Unmount =>
      match phase w with
      | Mounted => Some (exec unmount w)
      | _ => None
      end
  | SetIsOpen v =>
      match phase w with
      | Mounted => Some (exec (setIsOpen v) w)
      | _ => None
      end
  | Toggle =>
      match phase w with
      | Mounted => Some (exec (setIsOpen (negb (isOpen w))) w)
      | _ => None
      end
  | Change value =>
      match phase w with
      | Mounted => Some (exec (setInputValue value) w)
      | _ => None
      end
  | Send =>
      match phase w with
      | Mounted => Some (exec handleSend w)
      | _ => None
      end
  | Fire h =>
      match find_timer h (timers w) with
      | Some t =>
          if runnable w t
          then Some (exec (clearTimeout h;; run_callback (Timer.callback t)) w)
          else None
      | None => None
      end
  | Advance d =>
      if bool_decide (0 ≤ d) then Some (with_now (now w + d) w) else None
  end.

Fixpoint run (evs : list Event) (w : Widget) : option Widget :=
  match evs with
  | [] => Some w
  | ev :: evs' =>
      match step ev w with
      | Some w' => run evs' w'
      | None => None
      end
  end.

(** The page before the widget mounts, at clock [t0]; timer handles are
    positive, and [h0] of them were handed out to others before. *)
Definition init (t0 : Z) (h0 : nat) : Widget :=
  mkWidget Fresh ∅ false false false [] "" false None None t0 (S h0) [].

(** The controller operations of the specification, as the user
    interface issues them. *)
Definition submit (text : string) : list Event := [Change text; Send].
Definition openPanel : list Event := [SetIsOpen true].
Definition closePanel : list Event := [SetIsOpen false].
Definition dispose : list Event := [Unmount].

(** *** Views of the state used in the statements *)

(** The texts the user submitted, oldest first. *)
Definition asked (msgs : list Message.t) : list string :=
  omap (λ m, match Message.sender m with
             | user => Message.text m
             | bot => None
             end) msgs.

(** The bot messages, oldest first. *)
Definition bot_messages (msgs : list Message.t) : list Message.t :=
  List.filter (λ m, match Message.sender m with bot => true | user => false end) msgs.

(** The texts of the replies: every bot message but the greeting. *)
Definition replies (msgs : list Message.t) : list (option string) :=
  map Message.text (tail (bot_messages msgs)).

(** The inputs whose reply timer is still waiting, in creation order. *)
Definition awaiting (l : list Timer.t) : list string :=
  omap (λ t, match Timer.callback t with
             | Reply q => Some q
             | _ => None
             end) l.

Definition is_hint_timer (t : Timer.t) : bool :=
  match Timer.callback t with HintExpire => true | _ => false end.
Definition is_ornament_timer (t : Timer.t) : bool :=
  match Timer.callback t with OrnamentReveal => true | _ => false end.
Definition is_reply_timer (t : Timer.t) : bool :=
  match Timer.callback t with Reply _ => true | _ => false end.

End Component.

(** ** Vocabulary of the statements *)

(** Line 50 reads [hero.location] on a missing [hero]: some contact detail
    is present, [contact.location] is not, and the snapshot has no [hero]. *)
Definition derefs_missing_hero (raw : Raw.t) : bool :=
  truthy (js_or (Contact.email (Data.contact raw)) (Contact.phone (Data.contact raw))) &&
  negb (truthy (Contact.location (Data.contact raw))) &&
  match Data.hero raw with None => true | Some _ => false end.

(** The only way a topic text can be empty: a single skill without a name. *)
Definition lone_unnamed_skill (raw : Raw.t) : Prop :=
  ∃ sk, Data.skills raw = [sk] ∧ truthy (Skill.name sk) = false.

(** [build] returns a knowledge base with a non-empty text for every topic. *)
Definition build_total_nonempty (raw : Raw.t) : Prop :=
  ∃ kb, buildKnowledgeBase raw = Ok kb ∧
        ∀ topic, topic ∈ topics → ∃ s, kb !! topic = Some s ∧ s ≠ "".

(** Matching [query] against what [build] returned gives a non-empty string. *)
Definition match_total_nonempty `{JSString} (raw : Raw.t) (query : string) : Prop :=
  ∀ kb, buildKnowledgeBase raw = Ok kb →
        ∃ s, findBestMatch query kb = Some s ∧ s ≠ "".

(** The words of a topic, and whether one of them occurs in a lower-cased query. *)
Definition words_of (topic : string) : list string :=
  default [] (snd <$> List.find (λ e, String.eqb (fst e) topic) keywords).

Definition topic_matches (lowerQuery topic : string) : bool :=
  existsb (λ word, includes lowerQuery word) (words_of topic).

(** Snapshots used as examples. *)
Definition raw_empty : Raw.t := Raw.mk None None None None None None.

Definition raw_go_rust : Raw.t :=
  Raw.mk (Some (Hero.mk (Some "Ankush") None (Some "Pune")))
         (Some (Contact.mk (Some "a@b.c") None None))
         (Some [Skill.mk (Some "Go") (Some 90); Skill.mk (Some "Rust") (Some 80)])
         None None None.

Definition raw_unnamed_skill : Raw.t :=
  Raw.mk (Some (Hero.mk (Some "Ankush") None (Some "Pune")))
         (Some (Contact.mk (Some "a@b.c") None None))
         (Some [Skill.mk None (Some 50)])
         None None None.

Definition raw_no_hero : Raw.t :=
  Raw.mk None (Some (Contact.mk (Some "a@b.c") None (Some ""))) None None None None.

(** ** Invariants of the event loop *)

(** What [if (r) clearTimeout(r)] leaves of the timer table. *)
Definition clear_handle (r : option nat) (l : list Timer.t) : list Timer.t :=
  match r with
  | Some (S _ as h) => remove_timer h l
  | _ => l
  end.

(** Each live timer is accounted for: the hint timer is the one the ref
    holds, an ornament timer is the one the last effect run created, and a
    reply timer is held by neither and waits 800 ms. *)
Definition timer_ok (hr orn : option nat) (t : Timer.t) : Prop :=
  match Timer.callback t with
  | HintExpire => hr = Some (Timer.handle t)
  | OrnamentReveal => orn = Some (Timer.handle t)
  | Reply _ =>
      hr ≠ Some (Timer.handle t) ∧ orn ≠ Some (Timer.handle t) ∧ Timer.timeout t = 800
  end.

Definition earlier (a b : Timer.t) : Prop := (Timer.handle a < Timer.handle b)%nat.

Record table_ok (n : nat) (hr orn : option nat) (l : list Timer.t) : Prop := {
  ok_pos : (0 < n)%nat;
  ok_sorted : StronglySorted earlier l;
  ok_fresh : Forall (λ t, (0 < Timer.handle t < n)%nat) l;
  ok_kind : Forall (timer_ok hr orn) l;
  ok_hint_ref : ∀ h, hr = Some h → (h < n)%nat;
  ok_orn_ref : ∀ h, orn = Some h → (h < n)%nat;
}.

(** In every prefix of the log, the replies do not outnumber the
    submissions: the k-th reply comes after the k-th user message. *)
Definition in_order (msgs : list Message.t) : Prop :=
  ∀ n, (length (replies (take n msgs)) ≤ length (asked (take n msgs)))%nat.

Record conversation_ok `{JSString} (w : Widget) : Prop := {
  ok_greeting : ∃ m rest, messages w = m :: rest ∧ Message.sender m = bot;
  ok_replies : ∃ answered,
      asked (messages w) = answered ++ awaiting (timers w) ∧
      replies (messages w) = map (λ q, findBestMatch q (knowledgeBase w)) answered;
  ok_in_order : in_order (messages w);
}.

Record widget_ok `{JSString} (raw : Raw.t) (w : Widget) : Prop := {
  ok_table : table_ok (nextHandle w) (hintTimerRef w) (ornamentT w) (timers w);
  ok_fresh_init : phase w = Fresh → ∃ h0, w = init (now w) h0;
  ok_open : isOpen w = true → showHint w = false;
  ok_memo : phase w = Mounted → buildKnowledgeBase raw = Ok (knowledgeBase w);
  ok_conversation : phase w = Mounted → conversation_ok w;
}.

(** Who said what, oldest first. *)
Definition transcript (msgs : list Message.t) : list (Sender * option string) :=
  map (λ m, (Message.sender m, Message.text m)) msgs.

(** The knowledge base of [raw_go_rust]. *)
Definition kb_go_rust : gmap string string :=
  match buildKnowledgeBase raw_go_rust with
  | Ok kb => kb
  | Throw _ => ∅
  end.

(** ** More of [ChatWidget.tsx]: the key handler and what the render shows *)

(** The fields of a [React.KeyboardEvent] that [handleKeyPress] reads. *)
Module KeyboardEvent.
Record t := mk { key : string; shiftKey : bool }.
End KeyboardEvent.

(** [handleKeyPress]: Enter without Shift sends.  The result tells
    whether [e.preventDefault()] was called. *)
Definition handleKeyPress `{JSString} (e : KeyboardEvent.t) : M bool :=
  if String.eqb (KeyboardEvent.key e) "Enter" && negb (KeyboardEvent.shiftKey e)
  then handleSend;; mret true
  else mret false.

(** [disabled={!inputValue.trim()}] on the send button. *)
Definition sendDisabled `{JSString} (w : Widget) : bool :=
  String.eqb (trim (inputValue w)) "".

(** [{showHint && !isOpen && ...}]: the hint bubble is rendered. *)
Definition hintBubble (w : Widget) : bool := showHint w && negb (isOpen w).

(** ** Further invariants of the event loop *)

(** The id of a message is the decimal text of its timestamp, plus one for
    a bot message. *)
Definition stamped (m : Message.t) : Prop :=
  Message.id m =
  Number_toString (match Message.sender m with
                   | user => Message.timestamp m
                   | bot => Message.timestamp m + 1
                   end).

Definition not_later (a b : Message.t) : Prop :=
  Message.timestamp a ≤ Message.timestamp b.

Record session_ok (w : Widget) : Prop := {
  ok_ornaments :
    isOpen w = false →
    showOrnaments w = false ∧ Forall (λ t, is_ornament_timer t = false) (timers w);
  ok_typing : phase w = Mounted → isTyping w = true → awaiting (timers w) ≠ [];
  ok_stamps : Forall (λ m, Message.timestamp m ≤ now w) (messages w);
  ok_sorted_log : StronglySorted not_later (messages w);
  ok_ids : Forall stamped (tail (messages w));
  ok_refs_apart :
    ∀ h o, hintTimerRef w = Some h → ornamentT w = Some o → (h < o)%nat;
  ok_hint_timer :
    phase w = Mounted → showHint w = true →
    ∃ g rest h, messages w = g :: rest ∧ hintTimerRef w = Some h ∧
                Timer.mk h 5000 (Message.timestamp g + 5000) HintExpire ∈ timers w;
}.

(** When the user messages were created, oldest first. *)
Definition asked_at (msgs : list Message.t) : list Z :=
  omap (λ m, match Message.sender m with
             | user => Some (Message.timestamp m)
             | bot => None
             end) msgs.

(** When the replies were created: every bot message but the greeting. *)
Definition replied_at (msgs : list Message.t) : list Z :=
  map Message.timestamp (tail (bot_messages msgs)).

(** When the waiting reply timers are due, in creation order. *)
Definition due_of (l : list Timer.t) : list Z :=
  omap (λ t, match Timer.callback t with
             | Reply _ => Some (Timer.due t)
             | _ => None
             end) l.

(** Every reply in the log came at least 800 ms after its question, and
    every waiting reply is due 800 ms after its question. *)
Definition delays_ok (w : Widget) : Prop :=
  ∃ answered,
    map (λ t, t + 800) (asked_at (messages w)) = answered ++ due_of (timers w) ∧
    Forall2 Z.le answered (replied_at (messages w)).

(** * Properties *)

(** ** Strings *)

Lemma append_nonempty_l (a b : string) : a ≠ "" → a +:+ b ≠ "".
Proof. destruct a; [done | discriminate]. Qed.

Lemma append_nonempty_r (a b : string) : b ≠ "" → a +:+ b ≠ "".
Proof. destruct a; [done | discriminate]. Qed.

Lemma append_empty (a b : string) : a +:+ b = "" → a = "" ∧ b = "".
Proof. destruct a; [done | discriminate]. Qed.

Lemma concat_cons_nonempty (sep x : string) (l : list string) :
  x ≠ "" → String.concat sep (x :: l) ≠ "".
Proof. destruct l; simpl; [done | apply append_nonempty_l]. Qed.

Lemma truthy_nonempty (v : option string) (s : string) :
  v = Some s → truthy v = true → s ≠ "".
Proof. intros -> Ht ->. discriminate Ht. Qed.

Lemma truthy_false (v : option string) :
  truthy v = false ↔ v = None ∨ v = Some "".
Proof.
  destruct v as [[|c s]|]; simpl; split; try done; eauto; intros [? | ?]; done.
Qed.

Lemma js_or_else_nonempty (a : option string) (d : string) :
  d ≠ "" → js_or_else a d ≠ "".
Proof.
  intros Hd. unfold js_or_else. destruct a as [s|]; [|done].
  destruct (truthy (Some s)) eqn:Ht; [|done]. by eapply truthy_nonempty.
Qed.

(** ** The knowledge base *)

Lemma skills_text_nonempty l : skills_text l ≠ "".
Proof. unfold skills_text. by destruct (has_length l). Qed.

Lemma experience_text_nonempty l : experience_text l ≠ "".
Proof.
  unfold experience_text. destruct l as [|e l]; [done|]. simpl has_length. cbv iota.
  rewrite map_cons. apply concat_cons_nonempty.
  apply append_nonempty_r, append_nonempty_l. done.
Qed.

Lemma projects_text_nonempty l : projects_text l ≠ "".
Proof. unfold projects_text. by destruct (has_length l). Qed.

Lemma education_text_nonempty l : education_text l ≠ "".
Proof.
  unfold education_text. destruct l as [|e l]; [done|]. simpl has_length. cbv iota.
  rewrite map_cons. apply concat_cons_nonempty.
  apply append_nonempty_r, append_nonempty_l. done.
Qed.

Lemma location_text_nonempty c h : location_text c h ≠ "".
Proof. by apply js_or_else_nonempty. Qed.

Lemma availability_text_nonempty c : availability_text c ≠ "".
Proof. unfold availability_text. by destruct (truthy _). Qed.

Lemma strengths_text_nonempty l : strengths_text l ≠ "".
Proof. unfold strengths_text. by destruct (has_length l). Qed.

Lemma contact_text_nonempty c h s : contact_text c h = Ok s → s ≠ "".
Proof.
  unfold contact_text. destruct (truthy (js_or _ _)); [|by intros [= <-]].
  destruct (truthy (Contact.location c)); simpl.
  - by intros [= <-].
  - destruct h; simpl; [by intros [= <-] | done].
Qed.

(** The technologies text is empty exactly for a single skill without a name. *)
Lemma technologies_text_empty l :
  technologies_text l = "" ↔ ∃ sk, l = [sk] ∧ truthy (Skill.name sk) = false.
Proof.
  unfold technologies_text, join. destruct l as [|a [|b l]]; simpl has_length; cbv iota.
  - split; [done | by intros (? & ? & ?)].
  - simpl. split.
    + intros Ha. exists a. split; [done|]. apply truthy_false.
      destruct (Skill.name a); simpl in *; subst; eauto.
    + intros (sk & [= <-] & Ht). apply truthy_false in Ht as [-> | ->]; done.
  - simpl. split.
    + intros Ha. apply append_empty in Ha as [_ Ha]. discriminate Ha.
    + by intros (? & ? & ?).
Qed.

Lemma contact_text_throws c h :
  contact_text c h = Throw TypeError ↔
  truthy (js_or (Contact.email c) (Contact.phone c)) = true ∧
  truthy (Contact.location c) = false ∧ h = None.
Proof.
  unfold contact_text. destruct (truthy (js_or _ _)); [|naive_solver].
  destruct (truthy (Contact.location c)); simpl; [naive_solver|].
  destruct h; simpl; naive_solver.
Qed.

Lemma contact_text_cases c h :
  (∃ s, contact_text c h = Ok s) ∨ contact_text c h = Throw TypeError.
Proof. destruct (contact_text c h) as [s|[]]; eauto. Qed.

(** [build] throws exactly when line 50 dereferences the missing [hero]. *)
Lemma build_throws_iff raw :
  buildKnowledgeBase raw = Throw TypeError ↔ derefs_missing_hero raw = true.
Proof.
  unfold buildKnowledgeBase, derefs_missing_hero.
  destruct (contact_text_cases (Data.contact raw) (Data.hero raw)) as [[s Hs] | Ht].
  - rewrite Hs. simpl. split; [done|]. intros Hd.
    apply andb_prop in Hd as [Hd Hh]. apply andb_prop in Hd as [He Hl].
    apply negb_true_iff in Hl.
    assert (contact_text (Data.contact raw) (Data.hero raw) = Throw TypeError) as Hc.
    { apply contact_text_throws. by destruct (Data.hero raw). }
    congruence.
  - rewrite Ht. simpl. split; [|done]. intros _.
    apply contact_text_throws in Ht as (-> & -> & ->). done.
Qed.

(** What [build] returns, topic by topic. *)
Lemma build_lookup raw kb :
  buildKnowledgeBase raw = Ok kb →
  ∃ c, contact_text (Data.contact raw) (Data.hero raw) = Ok c ∧
    kb !! "skills" = Some (skills_text (Data.skills raw)) ∧
    kb !! "experience" = Some (experience_text (Data.experiences raw)) ∧
    kb !! "projects" = Some (projects_text (Data.projects raw)) ∧
    kb !! "education" = Some (education_text (Data.education raw)) ∧
    kb !! "contact" = Some c ∧
    kb !! "location" = Some (location_text (Data.contact raw) (Data.hero raw)) ∧
    kb !! "technologies" = Some (technologies_text (Data.skills raw)) ∧
    kb !! "availability" = Some (availability_text (Data.contact raw)) ∧
    kb !! "strengths" = Some (strengths_text (Data.skills raw)) ∧
    kb !! "interests" = Some interests_text.
Proof.
  unfold buildKnowledgeBase.
  destruct (contact_text (Data.contact raw) (Data.hero raw)) as [c|e]; simpl; [|done].
  intros [= <-]. exists c. split; [done|].
  repeat split; by simplify_map_eq.
Qed.

Lemma topics_cases topic :
  topic ∈ topics →
  topic = "skills" ∨ topic = "experience" ∨ topic = "projects" ∨ topic = "education" ∨
  topic = "contact" ∨ topic = "location" ∨ topic = "availability" ∨
  topic = "technologies" ∨ topic = "strengths" ∨ topic = "interests".
Proof. unfold topics, keywords. simpl. rewrite !elem_of_cons, elem_of_nil. naive_solver. Qed.

(** Every topic is defined, and only the technologies text can be empty. *)
Lemma build_topic_texts (raw : Raw.t) (kb : gmap string string) :
  buildKnowledgeBase raw = Ok kb →
  ∀ topic, topic ∈ topics →
    ∃ s, kb !! topic = Some s ∧
         (s = "" ↔ topic = "technologies" ∧ lone_unnamed_skill raw).
Proof.
  intros Hb.
  destruct (build_lookup raw kb Hb)
    as (c & Hc & Hsk & Hex & Hpr & Hed & Hco & Hlo & Hte & Hav & Hst & Hin).
  intros topic Ht. apply topics_cases in Ht.
  destruct Ht as [-> | [-> | [-> | [-> | [-> | [-> | [-> | [-> | [-> | ->]]]]]]]]].
  - eexists; split; [done|]. split; [by intros ?%skills_text_nonempty | by intros [? _]].
  - eexists; split; [done|]. split; [by intros ?%experience_text_nonempty | by intros [? _]].
  - eexists; split; [done|]. split; [by intros ?%projects_text_nonempty | by intros [? _]].
  - eexists; split; [done|]. split; [by intros ?%education_text_nonempty | by intros [? _]].
  - eexists; split; [done|]. split; [|by intros [? _]].
    intros ->. by eapply contact_text_nonempty in Hc.
  - eexists; split; [done|]. split; [by intros ?%location_text_nonempty | by intros [? _]].
  - eexists; split; [done|]. split; [by intros ?%availability_text_nonempty | by intros [? _]].
  - eexists; split; [done|]. unfold lone_unnamed_skill.
    rewrite technologies_text_empty. naive_solver.
  - eexists; split; [done|]. split; [by intros ?%strengths_text_nonempty | by intros [? _]].
  - eexists; split; [done|]. split; [done | by intros [? _]].
Qed.

(** C5 (as amended). Unless line 50 dereferences a missing [hero],
    [buildKnowledgeBase] returns a knowledge base that defines all ten
    topics; each text is non-empty, except that the technologies text is the
    empty string exactly when the skill collection is a single record whose
    name is missing or empty; and a topic whose source data is absent gets
    its placeholder text. *)
Theorem build_covers_all_topics (raw : Raw.t) :
  derefs_missing_hero raw = false →
  ∃ kb, buildKnowledgeBase raw = Ok kb ∧
    (∀ topic, topic ∈ topics →
       ∃ s, kb !! topic = Some s ∧
            (s = "" ↔ topic = "technologies" ∧ lone_unnamed_skill raw)) ∧
    (Data.skills raw = [] →
       kb !! "skills" = Some "Skills information is not available." ∧
       kb !! "technologies" = Some "Technologies not listed." ∧
       kb !! "strengths" = Some "Strengths not available.") ∧
    (Data.experiences raw = [] →
       kb !! "experience" = Some "Experience information is not available.") ∧
    (Data.projects raw = [] →
       kb !! "projects" = Some "Project information is not available.") ∧
    (Data.education raw = [] →
       kb !! "education" = Some "Education information is not available.") ∧
    (truthy (Contact.email (Data.contact raw)) = false →
     truthy (Contact.phone (Data.contact raw)) = false →
       kb !! "contact" = Some "Contact information is not available.") ∧
    (truthy (Contact.email (Data.contact raw)) = false →
       kb !! "availability" = Some "Availability information not available.") ∧
    (truthy (Contact.location (Data.contact raw)) = false →
     truthy (hero_location_opt (Data.hero raw)) = false →
       kb !! "location" = Some "Location not set.").
Proof.
  intros Hd.
  destruct (buildKnowledgeBase raw) as [kb|[]] eqn:Hb; cycle 1.
  { apply build_throws_iff in Hb. congruence. }
  exists kb. split; [done|].
  destruct (build_lookup raw kb Hb)
    as (c & Hc & Hsk & Hex & Hpr & Hed & Hco & Hlo & Hte & Hav & Hst & Hin).
  split_and!.
  - by apply build_topic_texts.
  - intros Hs. by rewrite Hsk, Hte, Hst, Hs.
  - intros Hs. by rewrite Hex, Hs.
  - intros Hs. by rewrite Hpr, Hs.
  - intros Hs. by rewrite Hed, Hs.
  - intros He Hp. rewrite Hco. f_equal.
    unfold contact_text, js_or in Hc. rewrite He, Hp in Hc. by injection Hc.
  - intros He. rewrite Hav. unfold availability_text. by rewrite He.
  - intros Hl Hh. rewrite Hlo. unfold location_text, js_or, js_or_else.
    rewrite Hl. destruct (hero_location_opt _); [by rewrite Hh | done].
Qed.

(** A snapshot in which every collection, [contact] and [hero] are missing. *)
Lemma build_covers_all_topics_witness :
  ∃ kb, buildKnowledgeBase raw_empty = Ok kb ∧
        kb !! "skills" = Some "Skills information is not available." ∧
        kb !! "location" = Some "Location not set.".
Proof.
  destruct (build_covers_all_topics raw_empty eq_refl)
    as (kb & Hb & _ & Hs & _ & _ & _ & _ & _ & Hl).
  exists kb. split; [exact Hb|]. split.
  - apply Hs. reflexivity.
  - apply Hl; reflexivity.
Defined.

(** C5 (as stated) fails: for a single skill record without a name, the
    technologies text is the empty string. *)
Lemma build_total_nonempty_counterexample :
  ¬ build_total_nonempty raw_unnamed_skill.
Proof.
  intros (kb & Hb & Hall).
  destruct (Hall "technologies") as (s & Hs & Hne).
  { unfold topics, keywords. simpl. set_solver. }
  apply build_lookup in Hb as (_ & _ & _ & _ & _ & _ & _ & _ & Hte & _).
  rewrite Hte in Hs. injection Hs as <-. by apply Hne.
Qed.

(** C10 (failing input). With no [hero], an e-mail address and an empty
    [contact.location], [buildKnowledgeBase] throws at line 50 before the
    location topic is written. *)
Theorem build_throws_without_hero :
  buildKnowledgeBase raw_no_hero = Throw TypeError ∧
  location_text (Data.contact raw_no_hero) (Data.hero raw_no_hero) = "Location not set.".
Proof. split; reflexivity. Qed.

(** The part of C10 that the code does deliver: whenever
    [buildKnowledgeBase] returns, an empty string counts as a missing field. *)
Lemma build_empty_string_as_missing (raw : Raw.t) (kb : gmap string string) :
  buildKnowledgeBase raw = Ok kb →
  (Contact.email (Data.contact raw) = Some "" →
   truthy (Contact.phone (Data.contact raw)) = false →
     kb !! "contact" = Some "Contact information is not available." ∧
     kb !! "availability" = Some "Availability information not available.") ∧
  (Contact.location (Data.contact raw) = Some "" →
     kb !! "location" = Some (js_or_else (hero_location_opt (Data.hero raw)) "Location not set.")).
Proof.
  intros Hb.
  destruct (build_lookup raw kb Hb)
    as (c & Hc & _ & _ & _ & _ & Hco & Hlo & _ & Hav & _ & _).
  split.
  - intros He Hp. split.
    + rewrite Hco. f_equal. unfold contact_text, js_or in Hc.
      rewrite He in Hc. simpl in Hc. rewrite Hp in Hc. by injection Hc.
    + rewrite Hav. unfold availability_text. by rewrite He.
  - intros Hl. rewrite Hlo. unfold location_text, js_or. by rewrite Hl.
Qed.

(** ** The matcher *)

Lemma scan_cases lowerQuery (kb : gmap string string) entries :
  scan lowerQuery kb entries = Some fallback ∨
  ∃ topic, topic ∈ map fst entries ∧ scan lowerQuery kb entries = kb !! topic.
Proof.
  induction entries as [|[topic words] rest IH]; simpl; [by left|].
  destruct (existsb _ words).
  - right. exists topic. split; [left | done].
  - destruct IH as [IH | (t & Ht & IH)]; [by left|].
    right. exists t. split; [by right | done].
Qed.

Lemma scan_no_match lowerQuery (kb : gmap string string) entries :
  Forall (λ e, existsb (λ word, includes lowerQuery word) (snd e) = false) entries →
  scan lowerQuery kb entries = Some fallback.
Proof.
  induction 1 as [|[topic words] rest Hw _ IH]; simpl; [done|].
  simpl in Hw. by rewrite Hw.
Qed.

Lemma fallback_nonempty : fallback ≠ "".
Proof. done. Qed.

(** C3. The query "I want a job at your company" contains keywords of the
    experience topic and of the availability topic; the matcher answers with
    the experience text, the earlier of the two in the table. *)
Theorem job_query_answers_experience `{JSString} (raw : Raw.t) (kb : gmap string string) :
  buildKnowledgeBase raw = Ok kb →
  topic_matches (toLowerCase "I want a job at your company") "experience" = true ∧
  topic_matches (toLowerCase "I want a job at your company") "availability" = true ∧
  findBestMatch "I want a job at your company" kb = kb !! "experience" ∧
  kb !! "experience" = Some (experience_text (Data.experiences raw)).
Proof.
  intros Hb. unfold findBestMatch.
  rewrite toLowerCase_ascii by reflexivity.
  split_and!; try reflexivity.
  by destruct (build_lookup raw kb Hb) as (c & _ & _ & Hex & _).
Qed.

Lemma job_query_answers_experience_witness :
  ∃ kb, buildKnowledgeBase raw_go_rust = Ok kb ∧
        findBestMatch "I want a job at your company" kb =
          Some "Experience information is not available.".
Proof.
  eexists. split; [reflexivity|].
  destruct (job_query_answers_experience raw_go_rust _ eq_refl) as (_ & _ & Hm & Hk).
  rewrite Hm. exact Hk.
Defined.

(** C4. With the skills Go (90) and Rust (80), the query
    "what tech do you know" is answered with exactly
    "Top skills: Go (90%), Rust (80%).". *)
Theorem tech_query_lists_top_skills `{JSString} (raw : Raw.t) (kb : gmap string string) :
  Raw.skills raw = Some [Skill.mk (Some "Go") (Some 90); Skill.mk (Some "Rust") (Some 80)] →
  buildKnowledgeBase raw = Ok kb →
  findBestMatch "what tech do you know" kb = Some "Top skills: Go (90%), Rust (80%).".
Proof.
  intros Hs Hb. unfold findBestMatch.
  rewrite toLowerCase_ascii by reflexivity.
  change (scan _ kb keywords) with (kb !! "skills").
  destruct (build_lookup raw kb Hb) as (c & _ & -> & _).
  unfold Data.skills. rewrite Hs. reflexivity.
Qed.

Lemma tech_query_lists_top_skills_witness :
  ∃ kb, buildKnowledgeBase raw_go_rust = Ok kb ∧
        findBestMatch "what tech do you know" kb = Some "Top skills: Go (90%), Rust (80%).".
Proof.
  eexists. split; [reflexivity|].
  apply (tech_query_lists_top_skills raw_go_rust); reflexivity.
Defined.

(** C6 (as amended). Matching any query against a knowledge base returned
    by [buildKnowledgeBase] returns a string; the string is empty only when
    the answer is the technologies text of a single skill without a name;
    a query whose lower-cased text contains no keyword, such as
    "asdkjaskdj", is answered with the fallback help string. *)
Theorem match_always_answers `{JSString} (raw : Raw.t) (kb : gmap string string)
    (query : string) :
  buildKnowledgeBase raw = Ok kb →
  (∃ s, findBestMatch query kb = Some s ∧
        (s = "" → findBestMatch query kb = kb !! "technologies" ∧ lone_unnamed_skill raw)) ∧
  (Forall (λ e, existsb (λ word, includes (toLowerCase query) word) (snd e) = false)
          keywords →
   findBestMatch query kb = Some fallback) ∧
  findBestMatch "asdkjaskdj" kb = Some fallback.
Proof.
  intros Hb. split_and!.
  - unfold findBestMatch.
    destruct (scan_cases (toLowerCase query) kb keywords) as [-> | (topic & Ht & ->)].
    { exists fallback. split; [done|]. intros Hf. by destruct fallback_nonempty. }
    destruct (build_topic_texts raw kb Hb topic Ht) as (s & Hs & Hempty).
    exists s. split; [done|]. intros He. apply Hempty in He as [-> Hl]. done.
  - intros Hno. unfold findBestMatch. by apply scan_no_match.
  - unfold findBestMatch. rewrite toLowerCase_ascii by reflexivity. reflexivity.
Qed.

Lemma match_always_answers_witness :
  ∃ kb, buildKnowledgeBase raw_go_rust = Ok kb ∧
        findBestMatch "asdkjaskdj" kb = Some fallback.
Proof.
  eexists. split; [reflexivity|].
  apply (match_always_answers raw_go_rust _ "asdkjaskdj"). reflexivity.
Defined.

(** C6 (as stated) fails: with a single skill record without a name, the
    query "stack" is answered with the empty string. *)
Lemma match_total_nonempty_counterexample :
  ¬ match_total_nonempty raw_unnamed_skill "stack".
Proof.
  intros Hm. destruct (Hm _ eq_refl) as (s & Hs & Hne).
  vm_compute in Hs. injection Hs as <-. by apply Hne.
Qed.

(** ** The event loop in closed form *)

Ltac unfold_widget :=
  unfold exec, mount, unmount, setIsOpen, handleSend, run_callback,
    hintEffect, hintCleanup, ornamentEffect, ornamentCleanup, focusEffect,
    clear_if_truthy, setIsOpen_state, setShowHint, setShowOrnaments, setMessages,
    setInputValue, setIsTyping, setState, modify, gets, setTimeout, clearTimeout,
    Date_now, mbind, mret, M_bind, M_ret.

Lemma exec_mount `{JSString} raw kb t h0 :
  exec (mount raw kb) (init t h0) =
  mkWidget Mounted kb false true false [greeting raw t] "" false (Some (S h0)) None
    t (S (S h0)) [Timer.mk (S h0) 5000 (t + 5000) HintExpire].
Proof. reflexivity. Qed.

Lemma exec_unmount w :
  exec unmount w =
  with_phase Unmounted
    (with_timers (nextHandle w)
       (clear_handle (ornamentT w) (clear_handle (hintTimerRef w) (timers w))) w).
Proof.
  destruct w as [p kb o sh so ms iv ty hr orn t n l]. unfold_widget. simpl.
  destruct hr as [[|hr]|], orn as [[|orn]|]; reflexivity.
Qed.

Lemma exec_open w :
  phase w = Mounted → isOpen w = false →
  exec (setIsOpen true) w =
  let n := nextHandle w in
  let l := clear_handle (ornamentT w) (timers w) ++
           [Timer.mk n 250 (now w + 250) OrnamentReveal] in
  let w1 := with_ornamentT (Some n) (with_isOpen true w) in
  if showHint w
  then with_showHint false
         (match hintTimerRef w with
          | Some (S _ as h) => with_hintTimerRef None (with_timers (S n) (remove_timer h l) w1)
          | _ => with_timers (S n) l w1
          end)
  else with_timers (S n) l w1.
Proof.
  destruct w as [p kb o sh so ms iv ty hr orn t n l]. simpl. intros -> ->.
  unfold_widget. simpl.
  destruct orn as [[|orn]|], sh, hr as [[|hr]|]; reflexivity.
Qed.

Lemma exec_close w :
  phase w = Mounted → isOpen w = true →
  exec (setIsOpen false) w =
  with_showOrnaments false
    (with_ornamentT None
       (with_timers (nextHandle w) (clear_handle (ornamentT w) (timers w))
          (with_isOpen false w))).
Proof.
  destruct w as [p kb o sh so ms iv ty hr orn t n l]. simpl. intros -> ->.
  unfold_widget. simpl.
  destruct orn as [[|orn]|]; reflexivity.
Qed.

Lemma exec_setIsOpen_same w v :
  isOpen w = v → exec (setIsOpen v) w = w.
Proof.
  destruct w as [p kb o sh so ms iv ty hr orn t n l]. simpl. intros ->.
  unfold_widget. simpl. by rewrite bool_decide_eq_true_2.
Qed.

Lemma exec_change w value :
  phase w = Mounted → exec (setInputValue value) w = with_inputValue value w.
Proof. destruct w. simpl. by intros ->. Qed.

Lemma exec_handleSend_blank `{JSString} w :
  trim (inputValue w) = "" → exec handleSend w = w.
Proof.
  destruct w as [p kb o sh so ms iv ty hr orn t n l]. simpl. intros Ht.
  unfold_widget. simpl. by rewrite Ht.
Qed.

Lemma exec_handleSend `{JSString} w :
  phase w = Mounted → trim (inputValue w) ≠ "" →
  exec handleSend w =
  with_timers (S (nextHandle w))
    (timers w ++ [Timer.mk (nextHandle w) 800 (now w + 800) (Reply (inputValue w))])
    (with_isTyping true
       (with_inputValue ""
          (with_messages
             (messages w ++
              [Message.mk (Number_toString (now w)) (Some (inputValue w)) user (now w)])
             w))).
Proof.
  destruct w as [p kb o sh so ms iv ty hr orn t n l]. simpl. intros -> Ht.
  unfold_widget. simpl.
  destruct (String.eqb_spec (trim iv) ""); [done | reflexivity].
Qed.

Lemma exec_fire `{JSString} w h cb :
  exec (clearTimeout h;; run_callback cb) w =
  let w1 := with_timers (nextHandle w) (remove_timer h (timers w)) w in
  match phase w with
  | Mounted =>
      match cb with
      | HintExpire => with_showHint false w1
      | OrnamentReveal => with_showOrnaments true w1
      | Reply q =>
          with_isTyping false
            (with_messages
               (messages w ++
                [Message.mk (Number_toString (now w + 1))
                   (findBestMatch q (knowledgeBase w)) bot (now w)])
               w1)
      end
  | _ => w1
  end.
Proof.
  destruct w as [p kb o sh so ms iv ty hr orn t n l].
  unfold_widget. destruct p, cb; reflexivity.
Qed.

(** ** The timer table *)

Lemma remove_timer_elem h l t :
  t ∈ remove_timer h l ↔ Timer.handle t ≠ h ∧ t ∈ l.
Proof. unfold remove_timer. by rewrite list_elem_of_filter. Qed.

Lemma Forall_remove_timer (P : Timer.t → Prop) h l :
  Forall P l → Forall P (remove_timer h l).
Proof.
  rewrite !Forall_forall. intros HP t Ht.
  apply remove_timer_elem in Ht as [_ Ht]. auto.
Qed.

Lemma sorted_remove_timer h l :
  StronglySorted earlier l → StronglySorted earlier (remove_timer h l).
Proof.
  induction 1 as [|t l Hl IH Ht]; [constructor|].
  unfold remove_timer. rewrite filter_cons. case_decide; [|done].
  constructor; [done|]. by apply Forall_remove_timer.
Qed.

Lemma remove_timer_id h l :
  Forall (λ t, Timer.handle t ≠ h) l → remove_timer h l = l.
Proof.
  induction 1 as [|t l Ht Hl IH]; [done|].
  unfold remove_timer. rewrite filter_cons. case_decide; [|done].
  f_equal. exact IH.
Qed.

Lemma sorted_handle_inj l t t' :
  StronglySorted earlier l → t ∈ l → t' ∈ l →
  Timer.handle t = Timer.handle t' → t = t'.
Proof.
  induction 1 as [|x l Hl IH Hx]; [by intros ?%elem_of_nil|].
  rewrite Forall_forall in Hx. unfold earlier in Hx.
  intros [->|Ht]%elem_of_cons [->|Ht']%elem_of_cons He; [done| | |by apply IH].
  - specialize (Hx _ Ht'). lia.
  - specialize (Hx _ Ht). lia.
Qed.

Lemma find_timer_elem h l t :
  find_timer h l = Some t → t ∈ l ∧ Timer.handle t = h.
Proof.
  unfold find_timer. intros [Hin Hh]%List.find_some.
  split; [by apply list_elem_of_In | by apply bool_decide_eq_true_1 in Hh].
Qed.

Lemma table_ok_remove n hr orn l h :
  table_ok n hr orn l → table_ok n hr orn (remove_timer h l).
Proof.
  intros [Hp Hs Hf Hk Hh Ho]. split; try done.
  - by apply sorted_remove_timer.
  - by apply Forall_remove_timer.
  - by apply Forall_remove_timer.
Qed.

Lemma table_ok_clear n hr orn l r :
  table_ok n hr orn l → table_ok n hr orn (clear_handle r l).
Proof. destruct r as [[|h]|]; simpl; [done| |done]. apply table_ok_remove. Qed.

Lemma table_ok_snoc n hr orn hr' orn' l t :
  table_ok n hr orn l →
  Timer.handle t = n →
  Forall (timer_ok hr' orn') (l ++ [t]) →
  (∀ h, hr' = Some h → (h < S n)%nat) →
  (∀ h, orn' = Some h → (h < S n)%nat) →
  table_ok (S n) hr' orn' (l ++ [t]).
Proof.
  intros [Hp Hs Hf Hk Hh Ho] Ht Htk Hh' Ho'. split; try done.
  - lia.
  - apply StronglySorted_app_2; [|done|repeat constructor].
    intros x1 x2 Hx1 ->%list_elem_of_singleton.
    rewrite Forall_forall in Hf. specialize (Hf _ Hx1). unfold earlier. lia.
  - apply Forall_app. split.
    + eapply Forall_impl; [exact Hf|]. simpl. intros; lia.
    + apply Forall_singleton. lia.
Qed.

Lemma table_ok_snoc_reply n hr orn l d q :
  table_ok n hr orn l →
  table_ok (S n) hr orn (l ++ [Timer.mk n 800 d (Reply q)]).
Proof.
  intros Hok. eapply table_ok_snoc; [done | done | | |].
  - destruct Hok as [Hp Hs Hf Hk Hh Ho]. apply Forall_app. split; [done|].
    apply Forall_singleton. unfold timer_ok. simpl. split_and!; [| |done].
    + intros Hr. apply Hh in Hr. lia.
    + intros Hr. apply Ho in Hr. lia.
  - intros h Hr. apply Hok in Hr. lia.
  - intros h Hr. apply Hok in Hr. lia.
Qed.

Lemma table_ok_no_orn n hr orn l :
  table_ok n hr orn l → table_ok n hr None (clear_handle orn l).
Proof.
  intros Hok. pose proof (table_ok_clear _ _ _ _ orn Hok) as [Hp Hs Hf Hk Hh Ho].
  split; try done.
  rewrite Forall_forall in *. intros t Ht. specialize (Hk t Ht). specialize (Hf t Ht).
  unfold timer_ok in *. destruct (Timer.callback t); [done| |naive_solver].
  subst orn. destruct (Timer.handle t) as [|h] eqn:Hh'; [lia|].
  simpl in Ht. apply remove_timer_elem in Ht as [Hne _]. congruence.
Qed.

Lemma table_ok_snoc_orn n hr l d :
  table_ok n hr None l →
  table_ok (S n) hr (Some n) (l ++ [Timer.mk n 250 d OrnamentReveal]).
Proof.
  intros Hok. eapply table_ok_snoc; [done | done | | |].
  - destruct Hok as [Hp Hs Hf Hk Hh Ho]. apply Forall_app. split; [|by apply Forall_singleton].
    rewrite Forall_forall in *. intros t Ht. specialize (Hk t Ht). specialize (Hf t Ht).
    unfold timer_ok in *. destruct (Timer.callback t); [done|done|].
    destruct Hk as (? & _ & ?). split_and!; [done| |done]. intros [= Hn]. lia.
  - intros h Hr. apply Hok in Hr. lia.
  - intros h [= <-]. lia.
Qed.

Lemma table_ok_no_hint n hr orn l :
  table_ok n hr orn l → table_ok n None orn (clear_handle hr l).
Proof.
  intros Hok. pose proof (table_ok_clear _ _ _ _ hr Hok) as [Hp Hs Hf Hk Hh Ho].
  split; try done.
  rewrite Forall_forall in *. intros t Ht. specialize (Hk t Ht). specialize (Hf t Ht).
  unfold timer_ok in *. destruct (Timer.callback t); [|done|naive_solver].
  subst hr. destruct (Timer.handle t) as [|h] eqn:Hh'; [lia|].
  simpl in Ht. apply remove_timer_elem in Ht as [Hne _]. congruence.
Qed.

Lemma table_ok_mount h0 d :
  table_ok (S (S h0)) (Some (S h0)) None [Timer.mk (S h0) 5000 d HintExpire].
Proof.
  split.
  - lia.
  - repeat constructor.
  - apply Forall_singleton. simpl. lia.
  - by apply Forall_singleton.
  - intros h [= <-]. lia.
  - done.
Qed.

(** No hint timer survives clearing the handle the ref holds. *)
Lemma no_hint_after_clear n hr orn l :
  table_ok n hr orn l →
  Forall (λ t, is_hint_timer t = false) (clear_handle hr l).
Proof.
  intros Hok. apply table_ok_no_hint in Hok as [_ _ _ Hk _ _].
  eapply Forall_impl; [exact Hk|]. intros t. unfold timer_ok, is_hint_timer.
  by destruct (Timer.callback t).
Qed.

Lemma no_ornament_after_clear n hr orn l :
  table_ok n hr orn l →
  Forall (λ t, is_ornament_timer t = false) (clear_handle orn l).
Proof.
  intros Hok. apply table_ok_no_orn in Hok as [_ _ _ Hk _ _].
  eapply Forall_impl; [exact Hk|]. intros t. unfold timer_ok, is_ornament_timer.
  by destruct (Timer.callback t).
Qed.

(** ** The message log and the waiting replies *)

Lemma asked_snoc_user ms i q t :
  asked (ms ++ [Message.mk i (Some q) user t]) = asked ms ++ [q].
Proof. unfold asked. by rewrite omap_app. Qed.

Lemma asked_snoc_bot ms i r t :
  asked (ms ++ [Message.mk i r bot t]) = asked ms.
Proof. unfold asked. rewrite omap_app. simpl. by rewrite app_nil_r. Qed.

Lemma replies_snoc_user ms i q t :
  replies (ms ++ [Message.mk i q user t]) = replies ms.
Proof. unfold replies, bot_messages. rewrite List.filter_app. simpl. by rewrite app_nil_r. Qed.

Lemma replies_snoc_bot ms m rest i r t :
  ms = m :: rest → Message.sender m = bot →
  replies (ms ++ [Message.mk i r bot t]) = replies ms ++ [r].
Proof.
  intros -> Hm. unfold replies, bot_messages. rewrite List.filter_app. simpl.
  rewrite Hm. simpl. by rewrite map_app.
Qed.

Lemma awaiting_snoc_reply l h ms d q :
  awaiting (l ++ [Timer.mk h ms d (Reply q)]) = awaiting l ++ [q].
Proof. unfold awaiting. by rewrite omap_app. Qed.

Lemma awaiting_snoc_other l t :
  is_reply_timer t = false → awaiting (l ++ [t]) = awaiting l.
Proof.
  intros Ht. unfold awaiting. rewrite omap_app. simpl.
  unfold is_reply_timer in Ht. destruct (Timer.callback t); [| |done]; by rewrite app_nil_r.
Qed.

Lemma awaiting_cons t l :
  awaiting (t :: l) =
  match Timer.callback t with
  | Reply q => q :: awaiting l
  | _ => awaiting l
  end.
Proof. unfold awaiting. simpl. by destruct (Timer.callback t). Qed.

Lemma remove_timer_cons h t l :
  remove_timer h (t :: l) =
  if decide (Timer.handle t ≠ h) then t :: remove_timer h l else remove_timer h l.
Proof. unfold remove_timer. by rewrite filter_cons. Qed.

Lemma awaiting_remove_other h l :
  Forall (λ t, Timer.handle t = h → is_reply_timer t = false) l →
  awaiting (remove_timer h l) = awaiting l.
Proof.
  induction 1 as [|t l Ht Hl IH]; [done|].
  rewrite remove_timer_cons. case_decide as Hh.
  - by rewrite !awaiting_cons, IH.
  - specialize (Ht Hh).
    rewrite awaiting_cons. unfold is_reply_timer in Ht.
    destruct (Timer.callback t); [exact IH | exact IH | done].
Qed.

Lemma awaiting_clear_hint n hr orn l :
  table_ok n hr orn l → awaiting (clear_handle hr l) = awaiting l.
Proof.
  intros [_ _ _ Hk _ _]. destruct hr as [[|h]|]; [done| |done]. simpl.
  apply awaiting_remove_other. eapply Forall_impl; [exact Hk|].
  intros t Ht Hh. unfold timer_ok, is_reply_timer in *.
  destruct (Timer.callback t); [done|done|]. destruct Ht as [Ht _]. congruence.
Qed.

Lemma awaiting_clear_orn n hr orn l :
  table_ok n hr orn l → awaiting (clear_handle orn l) = awaiting l.
Proof.
  intros [_ _ _ Hk _ _]. destruct orn as [[|h]|]; [done| |done]. simpl.
  apply awaiting_remove_other. eapply Forall_impl; [exact Hk|].
  intros t Ht Hh. unfold timer_ok, is_reply_timer in *.
  destruct (Timer.callback t); [done|done|]. destruct Ht as (_ & Ht & _). congruence.
Qed.

(** Firing a timer that is not a reply leaves the waiting replies alone. *)
Lemma awaiting_fire_other l t :
  StronglySorted earlier l → t ∈ l → is_reply_timer t = false →
  awaiting (remove_timer (Timer.handle t) l) = awaiting l.
Proof.
  intros Hs Ht Hr. apply awaiting_remove_other.
  apply Forall_forall. intros t' Ht' Hh.
  by rewrite (sorted_handle_inj l t' t Hs Ht' Ht Hh).
Qed.

(** A reply timer that may run is the oldest waiting reply. *)
Lemma awaiting_fire_reply l t q :
  StronglySorted earlier l →
  Forall (λ t', is_reply_timer t' = true → Timer.timeout t' = 800) l →
  t ∈ l → Timer.callback t = Reply q →
  existsb (blocks t) l = false →
  awaiting l = q :: awaiting (remove_timer (Timer.handle t) l).
Proof.
  intros Hs Hk Ht Hq.
  assert (Timer.timeout t = 800) as Ht800.
  { rewrite Forall_forall in Hk. apply Hk; [done|]. unfold is_reply_timer. by rewrite Hq. }
  induction Hs as [|x l Hl IH Hx]; [by apply elem_of_nil in Ht|].
  cbn [existsb]. intros [Hbx Hbl]%orb_false_elim.
  apply Forall_cons in Hk as [Hkx Hkl].
  rewrite remove_timer_cons, awaiting_cons.
  apply elem_of_cons in Ht as [<- | Ht].
  - rewrite decide_False by (intros Hc; by apply Hc).
    rewrite Hq, remove_timer_id; [done|].
    eapply Forall_impl; [exact Hx|]. unfold earlier. simpl. intros; lia.
  - assert (Timer.handle x < Timer.handle t)%nat as Hlt.
    { rewrite Forall_forall in Hx. by apply Hx. }
    rewrite decide_True by lia.
    assert (is_reply_timer x = false) as Hxr.
    { destruct (is_reply_timer x) eqn:Hxr; [|done].
      specialize (Hkx eq_refl). unfold blocks in Hbx.
      rewrite bool_decide_eq_true_2 in Hbx by done.
      rewrite bool_decide_eq_true_2 in Hbx by lia. done. }
    specialize (IH Hkl Ht Hbl). rewrite awaiting_cons.
    unfold is_reply_timer in Hxr.
    destruct (Timer.callback x); [exact IH | exact IH | done].
Qed.

Lemma in_order_whole ms :
  in_order ms → (length (replies ms) ≤ length (asked ms))%nat.
Proof. intros Ho. specialize (Ho (length ms)). by rewrite firstn_all in Ho. Qed.

Lemma in_order_snoc ms m :
  in_order ms →
  (length (replies (ms ++ [m])) ≤ length (asked (ms ++ [m])))%nat →
  in_order (ms ++ [m]).
Proof.
  intros Ho Hm n. destruct (decide (n ≤ length ms)%nat) as [Hn|Hn].
  - rewrite take_app_le by done. apply Ho.
  - rewrite take_ge; [done|]. rewrite length_app. simpl. lia.
Qed.

(** ** Every turn of the event loop keeps the invariant *)

Section Preservation.
Context `{JSString} (raw : Raw.t).

Lemma init_ok t h0 : widget_ok raw (init t h0).
Proof.
  split; simpl; try done.
  - split; simpl; try done; [lia | constructor].
  - intros _. by exists h0.
Qed.

Lemma mount_ok kb w :
  buildKnowledgeBase raw = Ok kb →
  phase w = Fresh → widget_ok raw w → widget_ok raw (exec (mount raw kb) w).
Proof.
  intros Hb Hp Hok. destruct (ok_fresh_init raw w Hok Hp) as [h0 ->].
  rewrite exec_mount. split; simpl; try done.
  - apply table_ok_mount.
  - intros _. split; simpl.
    + eexists _, _. split; [reflexivity | done].
    + by exists [].
    + intros [|n]; simpl; [done|]. rewrite take_nil. simpl. done.
Qed.

Lemma unmount_ok w :
  phase w = Mounted → widget_ok raw w → widget_ok raw (exec unmount w).
Proof.
  intros Hp Hok. rewrite exec_unmount. split; simpl; try done.
  - do 2 apply table_ok_clear. apply Hok.
  - apply Hok.
Qed.

(** The log, the knowledge base and the waiting replies are all that the
    conversation invariant reads. *)
Lemma conversation_ok_frame w w' :
  conversation_ok w →
  messages w' = messages w → knowledgeBase w' = knowledgeBase w →
  awaiting (timers w') = awaiting (timers w) →
  conversation_ok w'.
Proof.
  intros [Hg Hr Ho] Hm Hk Ha. split; rewrite ?Hm, ?Hk, ?Ha; done.
Qed.

Lemma setIsOpen_ok w v :
  phase w = Mounted → widget_ok raw w → widget_ok raw (exec (setIsOpen v) w).
Proof.
  intros Hp Hok. destruct (decide (isOpen w = v)) as [Hv|Hv].
  { by rewrite exec_setIsOpen_same. }
  pose proof (ok_table raw w Hok) as Ht.
  assert (table_ok (S (nextHandle w)) (hintTimerRef w) (Some (nextHandle w))
            (clear_handle (ornamentT w) (timers w) ++
             [Timer.mk (nextHandle w) 250 (now w + 250) OrnamentReveal])) as Ht2.
  { by apply table_ok_snoc_orn, table_ok_no_orn. }
  assert (awaiting (clear_handle (ornamentT w) (timers w) ++
             [Timer.mk (nextHandle w) 250 (now w + 250) OrnamentReveal]) =
          awaiting (timers w)) as Ha2.
  { rewrite awaiting_snoc_other by done. by eapply awaiting_clear_orn. }
  destruct v.
  - assert (isOpen w = false) as Ho by (by destruct (isOpen w)).
    rewrite exec_open by done. cbv zeta.
    assert (∀ w', messages w' = messages w → knowledgeBase w' = knowledgeBase w →
                  awaiting (timers w') = awaiting (timers w) →
                  conversation_ok w') as Hconv.
    { intros w' ? ? ?. eapply conversation_ok_frame; [by apply (ok_conversation raw w Hok)|done..]. }
    destruct (showHint w) eqn:Hsh; [destruct (hintTimerRef w) as [[|h]|] eqn:Hhr|].
    + split; simpl; rewrite ?Hp, ?Hhr; try done; try (by intros _; apply (ok_memo raw w Hok)). intros _. by apply Hconv.
    + split; simpl; rewrite ?Hp; try done; try (by intros _; apply (ok_memo raw w Hok)).
      * apply (table_ok_no_hint _ _ _ _ Ht2).
      * intros _. apply Hconv; simpl; try done.
        rewrite <- Ha2. apply (awaiting_clear_hint _ _ _ _ Ht2).
    + split; simpl; rewrite ?Hp, ?Hhr; try done; try (by intros _; apply (ok_memo raw w Hok)). intros _. by apply Hconv.
    + split; simpl; rewrite ?Hp; try done; try (by intros _; apply (ok_memo raw w Hok)). intros _. by apply Hconv.
  - assert (isOpen w = true) as Ho by (by destruct (isOpen w)).
    rewrite exec_close by done.
    split; simpl; rewrite ?Hp; try done; try (by intros _; apply (ok_memo raw w Hok)).
    + by apply table_ok_no_orn.
    + intros _. eapply conversation_ok_frame;
        [by apply (ok_conversation raw w Hok) | done | done | simpl].
      by eapply awaiting_clear_orn.
Qed.

Lemma change_ok w value :
  phase w = Mounted → widget_ok raw w → widget_ok raw (exec (setInputValue value) w).
Proof.
  intros Hp Hok. rewrite exec_change by done.
  split; simpl; rewrite ?Hp; try done; try apply Hok; try (by intros _; apply (ok_memo raw w Hok)).
  intros _. eapply conversation_ok_frame; [by apply (ok_conversation raw w Hok) | done..].
Qed.

Lemma handleSend_ok w :
  phase w = Mounted → widget_ok raw w → widget_ok raw (exec handleSend w).
Proof.
  intros Hp Hok. destruct (decide (trim (inputValue w) = "")) as [Hb|Hb].
  { by rewrite exec_handleSend_blank. }
  rewrite exec_handleSend by done.
  destruct (ok_conversation raw w Hok Hp) as [Hg (answered & Ha & Hr) Ho].
  split; simpl; rewrite ?Hp; try done; try apply Hok; try (by intros _; apply (ok_memo raw w Hok)).
  - apply table_ok_snoc_reply, Hok.
  - intros _. split; simpl.
    + destruct Hg as (m & rest & -> & Hm). by eexists _, _.
    + exists answered. rewrite asked_snoc_user, awaiting_snoc_reply, replies_snoc_user.
      split; [|done]. by rewrite Ha, app_assoc.
    + apply in_order_snoc; [done|].
      rewrite asked_snoc_user, replies_snoc_user, length_app. simpl.
      apply in_order_whole in Ho. lia.
Qed.

Lemma fire_ok w h t :
  find_timer h (timers w) = Some t → runnable w t = true →
  widget_ok raw w →
  widget_ok raw (exec (clearTimeout h;; run_callback (Timer.callback t)) w).
Proof.
  intros Hf Hrun Hok. apply find_timer_elem in Hf as [Ht <-].
  pose proof (ok_table raw w Hok) as Htab.
  pose proof (table_ok_remove _ _ _ _ (Timer.handle t) Htab) as Htab'.
  rewrite exec_fire. cbv zeta.
  destruct (phase w) eqn:Hp.
  - destruct (ok_fresh_init raw w Hok Hp) as [h0 Hw]. rewrite Hw in Ht. by apply elem_of_nil in Ht.
  - destruct (ok_conversation raw w Hok Hp) as [Hg (answered & Ha & Hr) Ho].
    destruct (Timer.callback t) as [| |q] eqn:Hcb.
    + split; simpl; rewrite ?Hp; try done; try (by intros _; apply (ok_memo raw w Hok)).
      intros _. eapply conversation_ok_frame;
        [by apply (ok_conversation raw w Hok) | done | done | simpl].
      apply awaiting_fire_other; [apply Htab | done |]. unfold is_reply_timer. by rewrite Hcb.
    + split; simpl; rewrite ?Hp; try done; try (by intros _; apply (ok_memo raw w Hok)); [apply Hok|].
      intros _. eapply conversation_ok_frame;
        [by apply (ok_conversation raw w Hok) | done | done | simpl].
      apply awaiting_fire_other; [apply Htab | done |]. unfold is_reply_timer. by rewrite Hcb.
    + assert (awaiting (timers w) = q :: awaiting (remove_timer (Timer.handle t) (timers w)))
        as Hq.
      { apply awaiting_fire_reply; [apply Htab| |done|done|].
        - eapply Forall_impl; [exact (ok_kind _ _ _ _ Htab)|]. intros t' Hk Hr'.
          unfold timer_ok, is_reply_timer in *.
          destruct (Timer.callback t'); [done | done | apply Hk].
        - unfold runnable in Hrun. apply andb_prop in Hrun as [_ Hrun].
          by apply negb_true_iff in Hrun. }
      split; simpl; rewrite ?Hp; try done; try (by intros _; apply (ok_memo raw w Hok)); [apply Hok|].
      intros _. destruct Hg as (m & rest & Hm & Hs). split; simpl.
      * rewrite Hm. by eexists _, _.
      * exists (answered ++ [q]).
        rewrite asked_snoc_bot, (replies_snoc_bot _ m rest) by done.
        rewrite Ha, Hq, Hr, map_app. split; [|done]. by rewrite <- app_assoc.
      * apply in_order_snoc; [done|].
        rewrite asked_snoc_bot, (replies_snoc_bot _ m rest), length_app by done.
        rewrite Ha, Hr, Hq, length_app, length_map. simpl. lia.
  - split; simpl; rewrite ?Hp; try done; try (by intros _; apply (ok_memo raw w Hok)). apply Hok.
Qed.

Lemma advance_ok w d : widget_ok raw w → widget_ok raw (with_now (now w + d) w).
Proof.
  intros Hok. split; simpl; try apply Hok.
  - intros Hp. destruct (ok_fresh_init raw w Hok Hp) as [h0 Hw]. exists h0.
    rewrite Hw. reflexivity.
  - intros Hp. eapply conversation_ok_frame; [by apply (ok_conversation raw w Hok) | done..].
Qed.

Lemma step_ok ev w w' :
  step raw ev w = Some w' → widget_ok raw w → widget_ok raw w'.
Proof.
  intros Hs Hok. destruct ev; simpl in Hs.
  - destruct (phase w) eqn:Hp; try done.
    destruct (buildKnowledgeBase raw) as [kb|] eqn:Hb; [|done].
    injection Hs as <-. by apply mount_ok.
  - destruct (phase w) eqn:Hp; try done. injection Hs as <-. by apply unmount_ok.
  - destruct (phase w) eqn:Hp; try done. injection Hs as <-. by apply setIsOpen_ok.
  - destruct (phase w) eqn:Hp; try done. injection Hs as <-. by apply setIsOpen_ok.
  - destruct (phase w) eqn:Hp; try done. injection Hs as <-. by apply change_ok.
  - destruct (phase w) eqn:Hp; try done. injection Hs as <-. by apply handleSend_ok.
  - destruct (find_timer h (timers w)) as [t|] eqn:Hf; [|done].
    destruct (runnable w t) eqn:Hr; [|done]. injection Hs as <-. by apply fire_ok.
  - case_bool_decide; [|done]. injection Hs as <-. by apply advance_ok.
Qed.

Lemma run_ok evs w w' :
  run raw evs w = Some w' → widget_ok raw w → widget_ok raw w'.
Proof.
  revert w. induction evs as [|ev evs IH]; intros w; simpl.
  - by intros [= <-].
  - destruct (step raw ev w) as [w1|] eqn:Hs; [|done].
    intros Hr Hok. eapply IH; [done|]. by eapply step_ok.
Qed.

Lemma run_app evs1 evs2 w :
  run raw (evs1 ++ evs2) w = run raw evs1 w ≫= run raw evs2.
Proof.
  revert w. induction evs1 as [|ev evs1 IH]; intros w; simpl; [done|].
  destruct (step raw ev w); [apply IH | done].
Qed.

End Preservation.

(** ** Single steps *)

Section Steps.
Context `{JSString} (raw : Raw.t).

Lemma run_cons ev evs w w1 :
  step raw ev w = Some w1 → run raw (ev :: evs) w = run raw evs w1.
Proof. intros Hs. simpl. by rewrite Hs. Qed.

Lemma step_mount kb t h0 :
  buildKnowledgeBase raw = Ok kb →
  step raw Mount (init t h0) =
  Some (mkWidget Mounted kb false true false [greeting raw t] "" false (Some (S h0)) None
          t (S (S h0)) [Timer.mk (S h0) 5000 (t + 5000) HintExpire]).
Proof. intros Hb. simpl. rewrite Hb. by rewrite exec_mount. Qed.

Lemma step_change w value :
  phase w = Mounted → step raw (Change value) w = Some (with_inputValue value w).
Proof. intros Hp. simpl. rewrite Hp. by rewrite exec_change. Qed.

Lemma step_send w :
  phase w = Mounted → trim (inputValue w) ≠ "" →
  step raw Send w =
  Some (with_timers (S (nextHandle w))
    (timers w ++ [Timer.mk (nextHandle w) 800 (now w + 800) (Reply (inputValue w))])
    (with_isTyping true
       (with_inputValue ""
          (with_messages
             (messages w ++
              [Message.mk (Number_toString (now w)) (Some (inputValue w)) user (now w)])
             w)))).
Proof. intros Hp Ht. simpl. rewrite Hp. by rewrite exec_handleSend. Qed.

Lemma step_send_blank w :
  phase w = Mounted → trim (inputValue w) = "" → step raw Send w = Some w.
Proof. intros Hp Ht. simpl. rewrite Hp. by rewrite exec_handleSend_blank. Qed.

Lemma step_advance w d :
  0 ≤ d → step raw (Advance d) w = Some (with_now (now w + d) w).
Proof. intros Hd. simpl. by rewrite bool_decide_eq_true_2. Qed.

Lemma step_fire_reply w h t q :
  phase w = Mounted →
  find_timer h (timers w) = Some t → runnable w t = true →
  Timer.callback t = Reply q →
  step raw (Fire h) w =
  Some (with_isTyping false
          (with_messages
             (messages w ++
              [Message.mk (Number_toString (now w + 1))
                 (findBestMatch q (knowledgeBase w)) bot (now w)])
             (with_timers (nextHandle w) (remove_timer h (timers w)) w))).
Proof.
  intros Hp Hf Hr Hq. cbn [step]. rewrite Hf, Hr, exec_fire. cbv zeta.
  by rewrite Hp, Hq.
Qed.

End Steps.

Ltac fields :=
  cbn [with_phase with_knowledgeBase with_isOpen with_showHint with_showOrnaments
       with_messages with_inputValue with_isTyping with_hintTimerRef with_ornamentT
       with_now with_timers
       phase knowledgeBase isOpen showHint showOrnaments messages inputValue isTyping
       hintTimerRef ornamentT now nextHandle timers
       Timer.handle Timer.timeout Timer.due Timer.callback app].

Ltac decide_all :=
  repeat first
    [ rewrite bool_decide_eq_true_2 by (simpl; lia)
    | rewrite bool_decide_eq_false_2 by (simpl; lia)
    | rewrite decide_True by (simpl; lia)
    | rewrite decide_False by (simpl; lia) ].


(** ** The onboarding hint *)

Section Hint.
Context `{JSString} (raw : Raw.t).

(** Once hidden after mounting, the hint stays hidden. *)
Lemma hint_stays_hidden_step ev w w' :
  step raw ev w = Some w' →
  phase w ≠ Fresh → showHint w = false →
  phase w' ≠ Fresh ∧ showHint w' = false.
Proof.
  intros Hs Hp Hh. destruct ev; simpl in Hs.
  - by destruct (phase w).
  - destruct (phase w) eqn:Hp'; try done. injection Hs as <-.
    rewrite exec_unmount. simpl. by rewrite Hh.
  - destruct (phase w) eqn:Hp'; try done. injection Hs as <-.
    destruct (decide (isOpen w = v)) as [Hv|Hv]; [by rewrite exec_setIsOpen_same, Hp'|].
    destruct v.
    + rewrite exec_open by (done || by destruct (isOpen w)). cbv zeta.
      rewrite Hh. simpl. by rewrite Hp'.
    + rewrite exec_close by (done || by destruct (isOpen w)). simpl. by rewrite Hp'.
  - destruct (phase w) eqn:Hp'; try done. injection Hs as <-.
    destruct (isOpen w) eqn:Ho; simpl.
    + rewrite exec_close by done. simpl. by rewrite Hp'.
    + rewrite exec_open by done. cbv zeta. rewrite Hh. simpl. by rewrite Hp'.
  - destruct (phase w) eqn:Hp'; try done. injection Hs as <-.
    rewrite exec_change by done. simpl. by rewrite Hp'.
  - destruct (phase w) eqn:Hp'; try done. injection Hs as <-.
    destruct (decide (trim (inputValue w) = "")) as [Hb|Hb].
    + rewrite exec_handleSend_blank by done. by rewrite Hp'.
    + rewrite exec_handleSend by done. simpl. by rewrite Hp'.
  - destruct (find_timer h (timers w)) as [t|]; [|done].
    destruct (runnable w t); [|done]. injection Hs as <-.
    rewrite exec_fire. cbv zeta.
    destruct (phase w) eqn:Hp'; [done| |simpl; by rewrite Hp'].
    destruct (Timer.callback t); simpl; by rewrite Hp'.
  - case_bool_decide; [|done]. by injection Hs as <-.
Qed.

Lemma hint_stays_hidden evs w w' :
  run raw evs w = Some w' →
  phase w ≠ Fresh → showHint w = false →
  showHint w' = false.
Proof.
  revert w. induction evs as [|ev evs IH]; intros w; simpl.
  - by intros [= <-].
  - destruct (step raw ev w) as [w1|] eqn:Hs; [|done]. intros Hr Hp Hh.
    destruct (hint_stays_hidden_step ev w w1 Hs Hp Hh). by eapply IH.
Qed.

(** Opening the panel while the hint shows hides it and clears its timer. *)
Lemma open_hides_hint w :
  widget_ok raw w → phase w = Mounted → showHint w = true →
  ∃ w', step raw (SetIsOpen true) w = Some w' ∧
        isOpen w' = true ∧ showHint w' = false ∧
        Forall (λ t, is_hint_timer t = false) (timers w').
Proof.
  intros Hok Hp Hh.
  assert (isOpen w = false) as Ho.
  { destruct (isOpen w) eqn:Ho; [|done]. apply (ok_open raw w Hok) in Ho. congruence. }
  eexists. split; [simpl; by rewrite Hp|].
  assert (widget_ok raw (exec (setIsOpen true) w)) as Hok' by (by apply setIsOpen_ok).
  apply ok_table in Hok'. revert Hok'.
  rewrite exec_open by done. cbv zeta. rewrite Hh.
  pose proof (ok_table raw w Hok) as Ht.
  destruct (hintTimerRef w) as [[|h]|] eqn:Hhr; simpl; intros Hok'; split_and!; try done.
  - pose proof (no_hint_after_clear _ _ _ _ Hok') as Hn. by rewrite Hhr in Hn.
  - apply (no_hint_after_clear _ _ _ _ Hok').
  - pose proof (no_hint_after_clear _ _ _ _ Hok') as Hn. by rewrite Hhr in Hn.
Qed.

End Hint.

(** ** The controller *)

(** C1. When "skills" and then "projects" are submitted before either
    reply timer has run, the second reply timer cannot run before the first,
    and once both have run the log reads: greeting, user "skills", user
    "projects", the reply to "skills", the reply to "projects".  In every
    mounted state the widget can reach, the replies in the log answer the
    submitted texts in submission order, one reply per submission once its
    timer has run, and the k-th reply stands after the k-th user message. *)
Theorem replies_in_submission_order `{JSString} (raw : Raw.t) (kb : gmap string string)
    (t0 : Z) (h0 : nat) :
  buildKnowledgeBase raw = Ok kb →
  let both := [Mount] ++ submit "skills" ++ submit "projects" ++ [Advance 800] in
  (∃ w, run raw (both ++ [Fire (S (S h0)); Fire (S (S (S h0)))]) (init t0 h0) = Some w ∧
        transcript (messages w) =
          [(bot, Message.text (greeting raw t0));
           (user, Some "skills"); (user, Some "projects");
           (bot, findBestMatch "skills" kb); (bot, findBestMatch "projects" kb)]) ∧
  run raw (both ++ [Fire (S (S (S h0)))]) (init t0 h0) = None ∧
  (∀ evs w, run raw evs (init t0 h0) = Some w → phase w = Mounted →
     in_order (messages w) ∧
     ∃ answered,
       asked (messages w) = answered ++ awaiting (timers w) ∧
       replies (messages w) = map (λ q, findBestMatch q kb) answered).
Proof.
  intros Hb both.
  assert (trim "skills" ≠ "") as Hs by (by rewrite trim_ascii).
  assert (trim "projects" ≠ "") as Hpj by (by rewrite trim_ascii).
  assert (∃ w5, run raw both (init t0 h0) = Some w5 ∧
            phase w5 = Mounted ∧ knowledgeBase w5 = kb ∧
            transcript (messages w5) =
              [(bot, Message.text (greeting raw t0));
               (user, Some "skills"); (user, Some "projects")] ∧
            now w5 = t0 + 800 ∧
            timers w5 =
              [Timer.mk (S h0) 5000 (t0 + 5000) HintExpire;
               Timer.mk (S (S h0)) 800 (t0 + 800) (Reply "skills");
               Timer.mk (S (S (S h0))) 800 (t0 + 800) (Reply "projects")])
    as (w5 & Hrun & Hp5 & Hk5 & Hm5 & Hn5 & Ht5).
  { unfold both. cbn [app submit].
    erewrite run_cons by (by apply step_mount).
    erewrite run_cons by (by apply step_change).
    erewrite run_cons by (by apply step_send).
    erewrite run_cons by (by apply step_change).
    erewrite run_cons by (by apply step_send).
    erewrite run_cons by (by apply step_advance).
    eexists. split; [reflexivity|]. by split_and!. }
  split_and!.
  - rewrite run_app, Hrun. cbn [mbind option_bind].
    erewrite run_cons.
    2:{ eapply (step_fire_reply raw w5); [done| | |].
        - rewrite Ht5. unfold find_timer. simpl. decide_all. reflexivity.
        - unfold runnable, blocks. rewrite Ht5, Hn5. simpl. decide_all. reflexivity.
        - reflexivity. }
    erewrite run_cons.
    2:{ eapply step_fire_reply; [done| | |].
        - fields. rewrite Ht5, !remove_timer_cons. fields. decide_all.
          unfold find_timer. simpl. decide_all. reflexivity.
        - unfold runnable, blocks. fields. rewrite Ht5, Hn5, !remove_timer_cons. fields.
          decide_all. simpl. decide_all. reflexivity.
        - reflexivity. }
    eexists. split; [reflexivity|]. fields.
    unfold transcript in *. rewrite !map_app, Hm5, Hk5. reflexivity.
  - rewrite run_app, Hrun. cbn [mbind option_bind run step].
    rewrite Ht5. unfold find_timer. simpl. decide_all.
    unfold runnable, blocks. rewrite Ht5, Hn5. simpl. decide_all. reflexivity.
  - intros evs w Hr Hp.
    assert (widget_ok raw w) as Hok by (eapply run_ok; [done | apply init_ok]).
    destruct (ok_conversation raw w Hok Hp) as [_ (answered & Ha & Hre) Ho].
    pose proof (ok_memo raw w Hok Hp) as Hm.
    assert (knowledgeBase w = kb) as <- by congruence.
    split; [done|]. by exists answered.
Qed.

(** The same order in a session where the panel is opened first and the
    two submissions are 5 ms apart. *)
Lemma replies_in_submission_order_witness :
  ∃ w, run raw_go_rust
         ([Mount; SetIsOpen true; Advance 250; Fire 2] ++
          submit "skills" ++ [Advance 5] ++ submit "projects" ++
          [Advance 800; Fire 3; Fire 4])
         (init 1000 0) = Some w ∧
       transcript (tail (messages w)) =
         [(user, Some "skills"); (user, Some "projects");
          (bot, Some "Top skills: Go (90%), Rust (80%).");
          (bot, Some "Project information is not available.")] ∧
       in_order (messages w).
Proof.
  destruct (replies_in_submission_order raw_go_rust kb_go_rust 1000 0) as (_ & _ & Hinv);
    [vm_compute; reflexivity|].
  eexists. split; [vm_compute; reflexivity|]. split; [vm_compute; reflexivity|].
  eapply (Hinv ([Mount; SetIsOpen true; Advance 250; Fire 2] ++
          submit "skills" ++ [Advance 5] ++ submit "projects" ++
          [Advance 800; Fire 3; Fire 4])); vm_compute; reflexivity.
Defined.

(** C7. After mounting, the hint shows and its timer waits 5000 ms.
    Opening the panel while the hint still shows hides it at once and removes
    the hint timer from the timer table.  From any state in which the panel
    is open, whatever happens next, the hint is never shown again. *)
Theorem hint_lifecycle `{JSString} (raw : Raw.t) (kb : gmap string string)
    (t0 : Z) (h0 : nat) :
  buildKnowledgeBase raw = Ok kb →
  (∃ w, run raw [Mount] (init t0 h0) = Some w ∧ showHint w = true ∧
        timers w = [Timer.mk (S h0) 5000 (t0 + 5000) HintExpire]) ∧
  (∀ evs w, run raw evs (init t0 h0) = Some w →
     phase w = Mounted → showHint w = true →
     ∃ w', run raw openPanel w = Some w' ∧ isOpen w' = true ∧ showHint w' = false ∧
           Forall (λ t, is_hint_timer t = false) (timers w')) ∧
  (∀ evs1 evs2 w1 w2, run raw evs1 (init t0 h0) = Some w1 → isOpen w1 = true →
     run raw evs2 w1 = Some w2 → showHint w2 = false).
Proof.
  intros Hb. split_and!.
  - eexists. split; [by erewrite run_cons by (by apply step_mount)|]. done.
  - intros evs w Hr Hp Hh.
    assert (widget_ok raw w) as Hok by (eapply run_ok; [done | apply init_ok]).
    destruct (open_hides_hint raw w Hok Hp Hh) as (w' & Hs & Ho & Hh' & Hn).
    exists w'. split; [|done]. unfold openPanel. by erewrite run_cons.
  - intros evs1 evs2 w1 w2 Hr1 Ho Hr2.
    assert (widget_ok raw w1) as Hok by (eapply run_ok; [done | apply init_ok]).
    eapply hint_stays_hidden; [done| |by apply (ok_open raw w1 Hok)].
    intros Hp. destruct (ok_fresh_init raw w1 Hok Hp) as [h1 Hw].
    rewrite Hw in Ho. done.
Qed.

(** A session in which the panel is opened, closed, and six seconds pass. *)
Lemma hint_lifecycle_witness :
  ∃ w, run raw_go_rust ([Mount; SetIsOpen true] ++ [SetIsOpen false; Advance 6000])
         (init 1000 0) = Some w ∧
       showHint w = false.
Proof.
  destruct (hint_lifecycle raw_go_rust kb_go_rust 1000 0) as (_ & _ & Hstay);
    [vm_compute; reflexivity|].
  eexists. split; [vm_compute; reflexivity|].
  eapply (Hstay [Mount; SetIsOpen true] [SetIsOpen false; Advance 6000]);
    vm_compute; reflexivity.
Defined.

(** C8. Submitting a text whose trimmed form is empty changes nothing but
    the input box: no message is added, [isTyping] keeps its value, and no
    timer is created. *)
Theorem blank_submission_is_noop `{JSString} (raw : Raw.t) (w : Widget) (text : string) :
  phase w = Mounted → trim text = "" →
  run raw (submit text) w = Some (with_inputValue text w) ∧
  messages (with_inputValue text w) = messages w ∧
  isTyping (with_inputValue text w) = isTyping w ∧
  timers (with_inputValue text w) = timers w ∧
  nextHandle (with_inputValue text w) = nextHandle w.
Proof.
  intros Hp Ht. split; [|done]. unfold submit.
  erewrite run_cons by (by apply step_change).
  erewrite run_cons by (by apply step_send_blank). done.
Qed.

(** Three spaces submitted right after mounting. *)
Lemma blank_submission_is_noop_witness :
  run raw_go_rust (submit "   ") (exec (mount raw_go_rust kb_go_rust) (init 1000 0)) =
    Some (with_inputValue "   " (exec (mount raw_go_rust kb_go_rust) (init 1000 0))).
Proof.
  apply (blank_submission_is_noop raw_go_rust
           (exec (mount raw_go_rust kb_go_rust) (init 1000 0)) "   ");
    reflexivity.
Defined.

(** ** Unmounting *)

(** Unmounting removes the hint timer and the ornament timer: whatever
    is left in the timer table is a reply timer. *)
Lemma unmount_leaves_only_replies `{JSString} (raw : Raw.t) (w w' : Widget) :
  widget_ok raw w → step raw Unmount w = Some w' →
  phase w' = Unmounted ∧ Forall (λ t, is_reply_timer t = true) (timers w').
Proof.
  intros Hok Hs. simpl in Hs. destruct (phase w) eqn:Hp; try done. injection Hs as <-.
  rewrite exec_unmount. simpl. split; [done|].
  pose proof (ok_table raw w Hok) as Ht.
  pose proof (no_hint_after_clear _ _ _ _ Ht) as Hh.
  pose proof (table_ok_clear _ _ _ _ (hintTimerRef w) Ht) as Ht'.
  pose proof (no_ornament_after_clear _ _ _ _ Ht') as Ho.
  assert (Forall (λ t, is_hint_timer t = false)
            (clear_handle (ornamentT w) (clear_handle (hintTimerRef w) (timers w)))) as Hh'.
  { destruct (ornamentT w) as [[|h]|]; simpl; [done| |done]. by apply Forall_remove_timer. }
  rewrite Forall_forall in *. intros t Hin.
  specialize (Hh' t Hin). specialize (Ho t Hin).
  unfold is_hint_timer, is_ornament_timer, is_reply_timer in *.
  by destruct (Timer.callback t).
Qed.

(** Unmounting cancels no reply timer. *)
Lemma unmount_keeps_reply_timers `{JSString} (raw : Raw.t) (w w' : Widget) :
  widget_ok raw w → step raw Unmount w = Some w' →
  awaiting (timers w') = awaiting (timers w).
Proof.
  intros Hok Hs. simpl in Hs. destruct (phase w) eqn:Hp; try done. injection Hs as <-.
  rewrite exec_unmount. simpl.
  pose proof (ok_table raw w Hok) as Ht.
  pose proof (table_ok_clear _ _ _ _ (hintTimerRef w) Ht) as Ht'.
  rewrite (awaiting_clear_orn _ _ _ _ Ht'). by eapply awaiting_clear_hint.
Qed.


(** C2 (failing input). The panel is opened, "skills" is submitted and the
    widget unmounts before the reply is due.  The reply timer is still in
    the timer table after unmounting and runs 800 ms later; React drops the
    state updates it makes, so the log itself stays as it was. *)
Theorem dispose_leaves_reply_timer :
  ∃ w, run raw_go_rust ([Mount] ++ openPanel ++ submit "skills" ++ dispose) (init 1000 0)
         = Some w ∧
       phase w = Unmounted ∧
       timers w = [Timer.mk 3 800 1800 (Reply "skills")] ∧
       ∃ w', run raw_go_rust [Advance 800; Fire 3] w = Some w' ∧
             timers w' = [] ∧ messages w' = messages w.
Proof.
  eexists. split; [vm_compute; reflexivity|]. split; [reflexivity|]. split; [reflexivity|].
  eexists. split; [vm_compute; reflexivity|]. split; reflexivity.
Qed.

(** ** Message ids *)

(** C9 (failing input). Two submissions within one millisecond give two
    user messages with the same id; two replies whose timers run within one
    millisecond give two bot messages with the same id. *)
Theorem message_ids_collide :
  (∃ w, run raw_go_rust ([Mount] ++ openPanel ++ submit "skills" ++ submit "projects")
          (init 1000 0) = Some w ∧
        map Message.id (messages w) = ["1"; "1000"; "1000"] ∧
        ¬ NoDup (map Message.id (messages w))) ∧
  (∃ w, run raw_go_rust
          ([Mount] ++ openPanel ++ [Advance 250; Fire 2] ++
           submit "skills" ++ [Advance 5] ++ submit "projects" ++
           [Advance 900; Fire 3; Fire 4])
          (init 1000 0) = Some w ∧
        map Message.id (messages w) = ["1"; "1250"; "1255"; "2156"; "2156"] ∧
        ¬ NoDup (map Message.id (messages w))).
Proof.
  split.
  - eexists. split; [vm_compute; reflexivity|]. split; [reflexivity|].
    intros Hn. change (NoDup ["1"; "1000"; "1000"]) in Hn.
    apply NoDup_cons in Hn as [_ Hn]. apply NoDup_cons in Hn as [Hn _].
    apply Hn. by left.
  - eexists. split; [vm_compute; reflexivity|]. split; [reflexivity|].
    intros Hn. change (NoDup ["1"; "1250"; "1255"; "2156"; "2156"]) in Hn.
    do 3 apply NoDup_cons in Hn as [_ Hn]. apply NoDup_cons in Hn as [Hn _].
    apply Hn. by left.
Qed.

(** * Further properties of the code *)

(** ** More on the knowledge base *)

Lemma has_length_take {A} n (l : list A) : has_length (take (S n) l) = has_length l.
Proof. by destruct l. Qed.

(** X1. [buildKnowledgeBase] throws exactly when some contact detail is
    present, [contact.location] is missing or empty, and the snapshot has no
    [hero]; the exception is a [TypeError], and in every other case a
    knowledge base is returned. *)
Theorem build_fails_exactly_without_hero (raw : Raw.t) :
  (buildKnowledgeBase raw = Throw TypeError ↔
     (truthy (Contact.email (Data.contact raw)) = true ∨
      truthy (Contact.phone (Data.contact raw)) = true) ∧
     truthy (Contact.location (Data.contact raw)) = false ∧
     Data.hero raw = None) ∧
  (derefs_missing_hero raw = false ↔ ∃ kb, buildKnowledgeBase raw = Ok kb).
Proof.
  split.
  - rewrite build_throws_iff. unfold derefs_missing_hero, js_or.
    destruct (truthy (Contact.email _)) eqn:He, (truthy (Contact.phone _)) eqn:Hp,
      (truthy (Contact.location _)), (Data.hero raw); simpl; rewrite ?He, ?Hp; simpl;
      naive_solver.
  - destruct (buildKnowledgeBase raw) as [kb|[]] eqn:Hb.
    + split; [by eauto|]. intros _. destruct (derefs_missing_hero raw) eqn:Hd; [|done].
      apply build_throws_iff in Hd. congruence.
    + apply build_throws_iff in Hb. rewrite Hb. split; [done | by intros [? ?]].
Qed.

(** X2. The knowledge base that [buildKnowledgeBase] returns has exactly
    the ten topics of the keyword table as its keys. *)
Theorem build_keys_are_the_topics (raw : Raw.t) (kb : gmap string string) :
  buildKnowledgeBase raw = Ok kb →
  dom kb = list_to_set topics.
Proof.
  unfold buildKnowledgeBase.
  destruct (contact_text _ _) as [c|]; simpl; [|done]. intros [= <-].
  rewrite !dom_insert_L, dom_empty_L. unfold topics, keywords. simpl.
  set_solver.
Qed.

Lemma build_keys_are_the_topics_witness :
  match buildKnowledgeBase raw_empty with
  | Ok kb => dom kb = list_to_set topics
  | Throw _ => False
  end.
Proof. simpl. apply (build_keys_are_the_topics raw_empty). reflexivity. Defined.

(** X3. Only the first eight skills enter the skills text, the first six
    projects the projects text and the first four skills the strengths
    text: whatever follows them in the data changes none of these texts. *)
Theorem texts_read_a_prefix (skills more_skills : list Skill.t)
    (projects more_projects : list Project.t) :
  ((8 ≤ length skills)%nat → skills_text (skills ++ more_skills) = skills_text skills) ∧
  ((6 ≤ length projects)%nat →
   projects_text (projects ++ more_projects) = projects_text projects) ∧
  ((4 ≤ length skills)%nat → strengths_text (skills ++ more_skills) = strengths_text skills) ∧
  skills_text skills = skills_text (take 8 skills) ∧
  projects_text projects = projects_text (take 6 projects) ∧
  strengths_text skills = strengths_text (take 4 skills).
Proof.
  split_and!.
  - intros Hl. unfold skills_text. rewrite take_app_le by done.
    destruct skills; [simpl in Hl; lia | done].
  - intros Hl. unfold projects_text. rewrite take_app_le by done.
    destruct projects; [simpl in Hl; lia | done].
  - intros Hl. unfold strengths_text. rewrite take_app_le by done.
    destruct skills; [simpl in Hl; lia | done].
  - unfold skills_text. by rewrite has_length_take, take_take.
  - unfold projects_text. by rewrite has_length_take, take_take.
  - unfold strengths_text. by rewrite has_length_take, take_take.
Qed.

Lemma texts_read_a_prefix_witness :
  skills_text (replicate 8 (Skill.mk (Some "Go") (Some 90)) ++ [Skill.mk (Some "Rust") (Some 80)])
  = skills_text (replicate 8 (Skill.mk (Some "Go") (Some 90))).
Proof.
  apply (proj1 (texts_read_a_prefix (replicate 8 (Skill.mk (Some "Go") (Some 90)))
                  [Skill.mk (Some "Rust") (Some 80)] [] [])).
  simpl. lia.
Defined.

(** ** Substrings *)

Lemma append_cons (c : ascii) (a b : string) : String c a +:+ b = String c (a +:+ b).
Proof. reflexivity. Qed.

Lemma append_nil_l (b : string) : "" +:+ b = b.
Proof. reflexivity. Qed.

Lemma append_nil_r (a : string) : a +:+ "" = a.
Proof. induction a as [|c a IH]; [done | by rewrite append_cons, IH]. Qed.

Lemma prefix_append (w s : string) :
  String.prefix w s = true ↔ ∃ b, s = w +:+ b.
Proof.
  revert s. induction w as [|c w IH]; intros s; simpl.
  - split; [intros _; by exists s | intros _; by destruct s].
  - destruct s as [|c' s]; [split; [done | by intros [? ?]]|]. simpl.
    destruct (Ascii.ascii_dec c c') as [->|Hc].
    + rewrite IH. split; intros [b Hb]; exists b; [by rewrite Hb | by injection Hb].
    + split; [done|]. intros [b Hb]. rewrite append_cons in Hb. by injection Hb as <- _.
Qed.

Lemma append_assoc (a b c : string) : (a +:+ b) +:+ c = a +:+ (b +:+ c).
Proof. induction a as [|x a IH]; [done | by rewrite !append_cons, IH]. Qed.

(** [includes] is substring containment. *)
Lemma includes_spec (s w : string) :
  includes s w = true ↔ ∃ a b, s = a +:+ w +:+ b.
Proof.
  induction s as [|c s IH]; cbn [includes].
  - rewrite orb_false_r, prefix_append. split.
    + intros [b Hb]. by exists "", b.
    + intros (a & b & Hab). destruct a; [by exists b | by rewrite append_cons in Hab].
  - rewrite orb_true_iff, prefix_append, IH. split.
    + intros [[b Hb] | (a & b & Hab)]; [by exists "", b|].
      exists (String c a), b. by rewrite append_cons, Hab.
    + intros (a & b & Hab). destruct a as [|c' a]; [left; by exists b|].
      right. exists a, b. rewrite append_cons in Hab. by injection Hab.
Qed.

Lemma includes_append_l (a b w : string) :
  includes a w = true → includes (a +:+ b) w = true.
Proof.
  rewrite !includes_spec. intros (x & y & ->). exists x, (y +:+ b).
  by rewrite !append_assoc.
Qed.

Lemma includes_append_r (a b w : string) :
  includes b w = true → includes (a +:+ b) w = true.
Proof.
  rewrite !includes_spec. intros (x & y & ->). exists (a +:+ x), y.
  by rewrite !append_assoc.
Qed.

Lemma includes_refl (w : string) : includes w w = true.
Proof. apply includes_spec. exists "", "". by rewrite append_nil_l, append_nil_r. Qed.

Lemma includes_trans (s m w : string) :
  includes s m = true → includes m w = true → includes s w = true.
Proof.
  rewrite !includes_spec. intros (a & b & ->) (x & y & ->).
  exists (a +:+ x), (y +:+ b). by rewrite !append_assoc.
Qed.

Lemma includes_concat (sep x : string) (l : list string) :
  x ∈ l → includes (String.concat sep l) x = true.
Proof.
  induction l as [|y l IH]; [by intros ?%elem_of_nil|].
  intros [->|Hx]%elem_of_cons.
  - destruct l; simpl; [apply includes_refl | apply includes_append_l, includes_refl].
  - destruct l as [|z l]; [by apply elem_of_nil in Hx|].
    change (String.concat sep (y :: z :: l)) with (y +:+ sep +:+ String.concat sep (z :: l)).
    by apply includes_append_r, includes_append_r, IH.
Qed.

(** X4. Every skill that has a name is named in the technologies text,
    and each of the first eight is listed in the skills text as
    "name (level%)". *)
Theorem skills_are_listed (skills : list Skill.t) (sk : Skill.t) (name : string) :
  Skill.name sk = Some name →
  (sk ∈ skills → includes (technologies_text skills) name = true) ∧
  (sk ∈ take 8 skills →
   includes (skills_text skills)
     (name +:+ " (" +:+ template_num (Skill.level sk) +:+ "%)") = true).
Proof.
  intros Hn. split; intros Hin.
  - unfold technologies_text, join. destruct skills as [|s0 l]; [by apply elem_of_nil in Hin|].
    simpl has_length. cbv iota. apply includes_concat.
    apply list_elem_of_fmap. exists (Skill.name sk). split; [by rewrite Hn|].
    apply list_elem_of_fmap. by exists sk.
  - unfold skills_text. destruct skills as [|s0 l]; [by apply elem_of_nil in Hin|].
    simpl has_length. cbv iota.
    apply includes_append_r, includes_append_l, includes_concat.
    apply list_elem_of_fmap. exists sk. split; [|done]. by rewrite Hn.
Qed.

Lemma skills_are_listed_witness :
  includes (technologies_text (Data.skills raw_go_rust)) "Rust" = true ∧
  includes (skills_text (Data.skills raw_go_rust)) "Rust (80%)" = true.
Proof.
  destruct (skills_are_listed (Data.skills raw_go_rust) (Skill.mk (Some "Rust") (Some 80))
              "Rust" eq_refl) as [Ht Hs].
  split.
  - apply Ht. vm_compute. right. left.
  - apply Hs. vm_compute. right. left.
Defined.

(** ** More on the matcher *)

Lemma scan_first_match lowerQuery (kb : gmap string string) before topic words after :
  Forall (λ e, existsb (λ word, includes lowerQuery word) (snd e) = false) before →
  existsb (λ word, includes lowerQuery word) words = true →
  scan lowerQuery kb (before ++ (topic, words) :: after) = kb !! topic.
Proof.
  intros Hb Hw. induction Hb as [|[t ws] rest Ht _ IH]; simpl.
  - by rewrite Hw.
  - simpl in Ht. by rewrite Ht.
Qed.

(** X5. Two ASCII queries that differ only in letter case get the same
    answer. *)
Theorem match_ignores_ascii_case `{JSString} (q1 q2 : string) (kb : gmap string string) :
  is_ascii q1 = true → is_ascii q2 = true →
  ascii_toLowerCase q1 = ascii_toLowerCase q2 →
  findBestMatch q1 kb = findBestMatch q2 kb.
Proof.
  intros H1 H2 Hq. unfold findBestMatch.
  by rewrite !toLowerCase_ascii, Hq.
Qed.

Lemma match_ignores_ascii_case_witness :
  findBestMatch "SKILLS?" kb_go_rust = findBestMatch "skills?" kb_go_rust.
Proof. apply match_ignores_ascii_case; reflexivity. Defined.

(** X6. The answer is the text of the first topic of the table one of
    whose keywords occurs in the lower-cased query: topics further down are
    not consulted. *)
Theorem first_matching_topic_wins `{JSString} (query : string) (kb : gmap string string)
    (before after : list (string * list string)) (topic : string) (words : list string) :
  keywords = before ++ (topic, words) :: after →
  Forall (λ e, existsb (λ word, includes (toLowerCase query) word) (snd e) = false) before →
  existsb (λ word, includes (toLowerCase query) word) words = true →
  findBestMatch query kb = kb !! topic.
Proof.
  intros Hk Hb Hw. unfold findBestMatch. rewrite Hk. by apply scan_first_match.
Qed.

Lemma first_matching_topic_wins_witness :
  findBestMatch "Where do you live?" kb_go_rust = kb_go_rust !! "location".
Proof.
  apply (first_matching_topic_wins "Where do you live?" kb_go_rust
           (take 5 keywords) (drop 6 keywords) "location"
           ["location"; "where"; "based"; "live"; "city"]).
  - reflexivity.
  - vm_compute. repeat constructor.
  - reflexivity.
Defined.

(** X7. Three keywords of the table never select their own topic: a query
    containing "work" or "job" is answered with the skills or the experience
    text, never through the projects or availability entry, and a query
    containing "hire" is answered by one of the first five topics, never
    through the availability entry. *)
Theorem shadowed_keywords `{JSString} (query : string) (kb : gmap string string) :
  (includes (toLowerCase query) "work" = true ∨ includes (toLowerCase query) "job" = true →
   findBestMatch query kb = kb !! "skills" ∨ findBestMatch query kb = kb !! "experience") ∧
  (includes (toLowerCase query) "hire" = true →
   ∃ topic, topic ∈ ["skills"; "experience"; "projects"; "education"; "contact"] ∧
            findBestMatch query kb = kb !! topic).
Proof.
  unfold findBestMatch. set (lq := toLowerCase query). split.
  - intros Hw. unfold keywords. cbn [scan].
    destruct (existsb _ _) eqn:H1; [by left | right]. clear H1.
    cbn [existsb]. destruct Hw as [-> | ->]; by rewrite ?orb_true_r.
  - intros Hh. unfold keywords. cbn [scan].
    destruct (existsb _ _); [exists "skills"; split; [set_solver | done]|].
    destruct (existsb _ _); [exists "experience"; split; [set_solver | done]|].
    destruct (existsb _ _); [exists "projects"; split; [set_solver | done]|].
    destruct (existsb _ _); [exists "education"; split; [set_solver | done]|].
    exists "contact". split; [set_solver|].
    cbn [existsb]. by rewrite Hh, ?orb_true_r.
Qed.

Lemma shadowed_keywords_witness :
  findBestMatch "are you hiring? can I hire you" kb_go_rust = kb_go_rust !! "contact".
Proof.
  destruct (shadowed_keywords "are you hiring? can I hire you" kb_go_rust) as [_ Hh].
  destruct Hh as (topic & Ht & Hm); [reflexivity|].
  rewrite Hm. vm_compute in Hm.
  repeat (apply elem_of_cons in Ht as [-> | Ht]; [first [reflexivity | discriminate Hm]|]).
  by apply elem_of_nil in Ht.
Defined.

(** X8. [findBestMatch] returns [undefined] only through a topic that the
    knowledge base lacks: on a knowledge base that defines the ten topics it
    always returns a string, and on the empty object a matching query gives
    [undefined] while a query without keyword still gets the fallback. *)
Theorem match_defined_on_full_kb `{JSString} (query : string) (kb : gmap string string) :
  (findBestMatch query kb = None →
   ∃ topic, topic ∈ topics ∧ kb !! topic = None) ∧
  ((∀ topic, topic ∈ topics → is_Some (kb !! topic)) → is_Some (findBestMatch query kb)) ∧
  (findBestMatch query ∅ = None ∨ findBestMatch query ∅ = Some fallback).
Proof.
  unfold findBestMatch. split_and!.
  - destruct (scan_cases (toLowerCase query) kb keywords) as [-> | (topic & Ht & ->)]; [done|].
    intros Hn. by exists topic.
  - intros Hall.
    destruct (scan_cases (toLowerCase query) kb keywords) as [-> | (topic & Ht & ->)]; [done|].
    by apply Hall.
  - destruct (scan_cases (toLowerCase query) ∅ keywords) as [-> | (topic & Ht & ->)];
      [by right | left; apply lookup_empty].
Qed.

Lemma match_defined_on_full_kb_witness :
  findBestMatch "skills" (∅ : gmap string string) = None ∧
  is_Some (findBestMatch "skills" kb_go_rust).
Proof.
  split; [reflexivity|].
  apply (match_defined_on_full_kb "skills" kb_go_rust).
  intros topic Ht. apply topics_cases in Ht.
  destruct Ht as [-> | [-> | [-> | [-> | [-> | [-> | [-> | [-> | [-> | ->]]]]]]]]];
    vm_compute; eauto.
Defined.

(** ** The further invariants are kept *)

Lemma Forall_clear_handle (P : Timer.t → Prop) r l :
  Forall P l → Forall P (clear_handle r l).
Proof. destruct r as [[|h]|]; simpl; [done| |done]. apply Forall_remove_timer. Qed.

Lemma elem_of_clear_handle_ne r l t :
  t ∈ l → r ≠ Some (Timer.handle t) → t ∈ clear_handle r l.
Proof.
  intros Ht Hr. destruct r as [[|h]|]; simpl; [done| |done].
  apply remove_timer_elem. split; [congruence | done].
Qed.

Lemma tail_snoc {A} (l : list A) (x : A) : l ≠ [] → tail (l ++ [x]) = tail l ++ [x].
Proof. by destruct l. Qed.

Lemma sorted_log_snoc (w : Widget) (m : Message.t) :
  Forall (λ m', Message.timestamp m' ≤ now w) (messages w) →
  StronglySorted not_later (messages w) →
  Message.timestamp m = now w →
  StronglySorted not_later (messages w ++ [m]).
Proof.
  intros Hs Hl Hm. apply StronglySorted_app_2; [|done|repeat constructor].
  intros m1 m2 H1 ->%list_elem_of_singleton.
  rewrite Forall_forall in Hs. unfold not_later. rewrite Hm. by apply Hs.
Qed.

Section Session.
Context `{JSString} (raw : Raw.t).

Lemma init_session t h0 : session_ok (init t h0).
Proof. split; simpl; try done. constructor. Qed.

Lemma mount_session kb w :
  phase w = Fresh → widget_ok raw w → session_ok (exec (mount raw kb) w).
Proof.
  intros Hp Hok. destruct (ok_fresh_init raw w Hok Hp) as [h0 ->].
  rewrite exec_mount. split; simpl; try done.
  - intros _. split; [done|]. by apply Forall_singleton.
  - by apply Forall_singleton.
  - repeat constructor.
  - intros _ _. eexists _, _, _. split_and!; try done. simpl. apply list_elem_of_singleton. done.
Qed.

Lemma unmount_session w :
  phase w = Mounted → session_ok w → session_ok (exec unmount w).
Proof.
  intros Hp [Ho Hty Hs Hl Hi Hr Hh]. rewrite exec_unmount. split; simpl; try done.
  intros Hc. destruct (Ho Hc) as [? ?]. split; [done|]. by do 2 apply Forall_clear_handle.
Qed.

Lemma setIsOpen_session w v :
  phase w = Mounted → widget_ok raw w → session_ok w → session_ok (exec (setIsOpen v) w).
Proof.
  intros Hp Hok Hs. destruct (decide (isOpen w = v)) as [Hv|Hv].
  { by rewrite exec_setIsOpen_same. }
  pose proof (ok_table raw w Hok) as Ht.
  destruct Hs as [Ho Hty Hst Hl Hi Hr Hh].
  assert (awaiting (clear_handle (ornamentT w) (timers w)) = awaiting (timers w)) as Ha
    by (by eapply awaiting_clear_orn).
  assert (∀ h, hintTimerRef w = Some h → (h < nextHandle w)%nat) as Hhr by apply Ht.
  destruct v.
  - assert (isOpen w = false) as Hc by (by destruct (isOpen w)).
    rewrite exec_open by done. cbv zeta.
    assert (table_ok (S (nextHandle w)) (hintTimerRef w) (Some (nextHandle w))
              (clear_handle (ornamentT w) (timers w) ++
               [Timer.mk (nextHandle w) 250 (now w + 250) OrnamentReveal])) as Ht2.
    { by apply table_ok_snoc_orn, table_ok_no_orn. }
    destruct (showHint w) eqn:Hsh; [destruct (hintTimerRef w) as [[|h]|] eqn:Hh'|].
    all: split; simpl; rewrite ?Hp; try done.
    all: try (intros _ Hsh'; congruence).
    all: try (intros _ Hty'; specialize (Hty Hp Hty')).
    all: try (intros h1 o Hh1 [= <-]; try rewrite Hh' in Hh1; by apply Hhr).
    + by rewrite awaiting_snoc_other, Ha.
    + rewrite <- Hh' in Ht2.
      pose proof (awaiting_clear_hint _ _ _ _ Ht2) as Hah. rewrite Hh' in Hah. simpl in Hah.
      by rewrite Hah, awaiting_snoc_other, Ha.
    + by rewrite awaiting_snoc_other, Ha.
    + by rewrite awaiting_snoc_other, Ha.
  - assert (isOpen w = true) as Hc by (by destruct (isOpen w)).
    rewrite exec_close by done.
    split; simpl; rewrite ?Hp; try done.
    + intros _. split; [done|]. by eapply no_ornament_after_clear.
    + intros _ Hty'. rewrite Ha. by apply Hty.
    + intros _ Hsh. destruct (Hh Hp Hsh) as (g & rest & h & Hm & Hhr' & Hin).
      exists g, rest, h. split_and!; try done.
      apply elem_of_clear_handle_ne; [done|]. simpl.
      intros Ho'. specialize (Hr h h Hhr' Ho'). lia.
Qed.

Lemma change_session w value :
  phase w = Mounted → session_ok w → session_ok (exec (setInputValue value) w).
Proof.
  intros Hp [Ho Hty Hst Hl Hi Hr Hh]. rewrite exec_change by done.
  split; simpl; rewrite ?Hp; try done.
  - intros _. by apply Hty.
  - intros _. by apply Hh.
Qed.

Lemma handleSend_session w :
  phase w = Mounted → widget_ok raw w → session_ok w → session_ok (exec handleSend w).
Proof.
  intros Hp Hok Hs. destruct (decide (trim (inputValue w) = "")) as [Hb|Hb].
  { by rewrite exec_handleSend_blank. }
  rewrite exec_handleSend by done.
  destruct (ok_conversation raw w Hok Hp) as [(g0 & rest0 & Hm0 & _) _ _].
  destruct Hs as [Ho Hty Hst Hl Hi Hr Hh].
  split; simpl; rewrite ?Hp; try done.
  - intros Hc. destruct (Ho Hc) as [? ?]. split; [done|].
    apply Forall_app. split; [done | by apply Forall_singleton].
  - intros _ _. rewrite awaiting_snoc_reply. by destruct (awaiting (timers w)).
  - apply Forall_app. split; [done|]. apply Forall_singleton. simpl. lia.
  - by apply sorted_log_snoc.
  - rewrite tail_snoc by (by rewrite Hm0). apply Forall_app. split; [done|].
    by apply Forall_singleton.
  - intros _ Hsh. destruct (Hh Hp Hsh) as (g & rest & h & Hm & Hhr' & Hin).
    exists g, (rest ++ [Message.mk (Number_toString (now w)) (Some (inputValue w)) user (now w)]), h.
    split_and!; [by rewrite Hm | done |]. apply elem_of_app. by left.
Qed.

Lemma fire_session w h t :
  find_timer h (timers w) = Some t → runnable w t = true →
  widget_ok raw w → session_ok w →
  session_ok (exec (clearTimeout h;; run_callback (Timer.callback t)) w).
Proof.
  intros Hf Hrun Hok Hs. apply find_timer_elem in Hf as [Ht <-].
  pose proof (ok_table raw w Hok) as Htab.
  destruct Hs as [Ho Hty Hst Hl Hi Hr Hh].
  assert (isOpen w = false →
          showOrnaments w = false ∧
          Forall (λ t', is_ornament_timer t' = false) (remove_timer (Timer.handle t) (timers w)))
    as Ho'.
  { intros Hc. destruct (Ho Hc) as [? ?]. split; [done | by apply Forall_remove_timer]. }
  rewrite exec_fire. cbv zeta.
  destruct (phase w) eqn:Hp.
  - destruct (ok_fresh_init raw w Hok Hp) as [h0 Hw]. rewrite Hw in Ht. by apply elem_of_nil in Ht.
  - destruct (ok_conversation raw w Hok Hp) as [(g0 & rest0 & Hm0 & _) _ _].
    assert (∀ cb, Timer.callback t = cb → cb ≠ HintExpire → showHint w = true →
              ∃ g rest h', messages w = g :: rest ∧ hintTimerRef w = Some h' ∧
                Timer.mk h' 5000 (Message.timestamp g + 5000) HintExpire
                  ∈ remove_timer (Timer.handle t) (timers w)) as Hkeep.
    { intros cb Hcb Hne Hsh. destruct (Hh eq_refl Hsh) as (g & rest & h' & Hm & Hhr' & Hin).
      exists g, rest, h'. split_and!; try done. apply remove_timer_elem. split; [|done].
      simpl. intros He.
      assert (Timer.mk h' 5000 (Message.timestamp g + 5000) HintExpire = t) as Heq.
      { eapply sorted_handle_inj; [apply Htab | done | done | done]. }
      rewrite <- Heq in Hcb. simpl in Hcb. congruence. }
    destruct (Timer.callback t) as [| |q] eqn:Hcb.
    + split; simpl; rewrite ?Hp; try done.
      intros _ Hty'. rewrite awaiting_fire_other; [by apply Hty|apply Htab|done|].
      unfold is_reply_timer. by rewrite Hcb.
    + assert (isOpen w = true) as Hopen.
      { destruct (isOpen w) eqn:Hc; [done|]. destruct (Ho eq_refl) as [_ Hno].
        rewrite Forall_forall in Hno. specialize (Hno t Ht).
        unfold is_ornament_timer in Hno. by rewrite Hcb in Hno. }
      split; simpl; rewrite ?Hp; try done.
      * by rewrite Hopen.
      * intros _ Hty'. rewrite awaiting_fire_other; [by apply Hty|apply Htab|done|].
        unfold is_reply_timer. by rewrite Hcb.
      * intros _ Hsh. by apply (Hkeep OrnamentReveal).
    + split; simpl; rewrite ?Hp; try done.
      * apply Forall_app. split; [done|]. apply Forall_singleton. simpl. lia.
      * by apply sorted_log_snoc.
      * rewrite tail_snoc by (by rewrite Hm0). apply Forall_app. split; [done|].
        by apply Forall_singleton.
      * intros _ Hsh. destruct (Hkeep (Reply q) eq_refl) as (g & rest & h' & Hm & Hhr' & Hin);
          [done | done |].
        eexists g, _, h'. split_and!; [by rewrite Hm | done | done].
  - split; simpl; rewrite ?Hp; try done.
Qed.

Lemma advance_session w d : 0 ≤ d → session_ok w → session_ok (with_now (now w + d) w).
Proof.
  intros Hd [Ho Hty Hst Hl Hi Hr Hh]. split; simpl; try done.
  eapply Forall_impl; [exact Hst|]. simpl. intros; lia.
Qed.

Lemma step_session ev w w' :
  step raw ev w = Some w' → widget_ok raw w → session_ok w → session_ok w'.
Proof.
  intros Hs Hok Hse. destruct ev; simpl in Hs.
  - destruct (phase w) eqn:Hp; try done.
    destruct (buildKnowledgeBase raw) as [kb|] eqn:Hb; [|done].
    injection Hs as <-. by apply mount_session.
  - destruct (phase w) eqn:Hp; try done. injection Hs as <-. by apply unmount_session.
  - destruct (phase w) eqn:Hp; try done. injection Hs as <-. by apply setIsOpen_session.
  - destruct (phase w) eqn:Hp; try done. injection Hs as <-. by apply setIsOpen_session.
  - destruct (phase w) eqn:Hp; try done. injection Hs as <-. by apply change_session.
  - destruct (phase w) eqn:Hp; try done. injection Hs as <-. by apply handleSend_session.
  - destruct (find_timer h (timers w)) as [t|] eqn:Hf; [|done].
    destruct (runnable w t) eqn:Hr; [|done]. injection Hs as <-. by apply fire_session.
  - case_bool_decide; [|done]. injection Hs as <-. by apply advance_session.
Qed.

Lemma run_session evs w w' :
  run raw evs w = Some w' → widget_ok raw w → session_ok w →
  widget_ok raw w' ∧ session_ok w'.
Proof.
  revert w. induction evs as [|ev evs IH]; intros w; simpl.
  - by intros [= <-].
  - destruct (step raw ev w) as [w1|] eqn:Hs; [|done].
    intros Hr Hok Hse. eapply IH; [done | by eapply step_ok | by eapply step_session].
Qed.

Lemma reachable_ok evs t0 h0 w :
  run raw evs (init t0 h0) = Some w → widget_ok raw w ∧ session_ok w.
Proof. intros Hr. eapply run_session; [done | apply init_ok | apply init_session]. Qed.

End Session.

(** ** More on the controller *)

(** X9. While the panel is closed the ornaments are hidden and no
    ornament timer waits; so closing the panel before the 250 ms are over
    cancels the reveal, and the ornaments are only ever shown with the
    panel open. *)
Theorem ornaments_follow_the_panel `{JSString} (raw : Raw.t) (t0 : Z) (h0 : nat)
    (evs : list Event) (w : Widget) :
  run raw evs (init t0 h0) = Some w →
  (isOpen w = false →
   showOrnaments w = false ∧ Forall (λ t, is_ornament_timer t = false) (timers w)) ∧
  (showOrnaments w = true → isOpen w = true).
Proof.
  intros Hr. destruct (reachable_ok raw evs t0 h0 w Hr) as [_ Hs].
  split; [apply Hs|]. intros Hso. destruct (isOpen w) eqn:Ho; [done|].
  destruct (ok_ornaments w Hs Ho) as [Hf _]. congruence.
Qed.

Lemma ornaments_follow_the_panel_witness :
  ∃ w, run raw_go_rust ([Mount] ++ openPanel ++ [Advance 100] ++ closePanel ++ [Advance 500])
         (init 1000 0) = Some w ∧
       showOrnaments w = false ∧ timers w = [].
Proof.
  eexists. split; [vm_compute; reflexivity|]. split; [|reflexivity].
  eapply (ornaments_follow_the_panel raw_go_rust 1000 0
            ([Mount] ++ openPanel ++ [Advance 100] ++ closePanel ++ [Advance 500]));
    vm_compute; reflexivity.
Defined.

(** X10. At any time at most one hint timer and at most one ornament
    timer wait in the timer table. *)
Theorem one_timer_per_lineage `{JSString} (raw : Raw.t) (t0 : Z) (h0 : nat)
    (evs : list Event) (w : Widget) (t t' : Timer.t) :
  run raw evs (init t0 h0) = Some w →
  t ∈ timers w → t' ∈ timers w →
  (is_hint_timer t = true ∧ is_hint_timer t' = true) ∨
  (is_ornament_timer t = true ∧ is_ornament_timer t' = true) →
  t = t'.
Proof.
  intros Hr Ht Ht' Hk. destruct (reachable_ok raw evs t0 h0 w Hr) as [Hok _].
  pose proof (ok_table raw w Hok) as [_ Hs _ Hkind _ _].
  rewrite Forall_forall in Hkind.
  pose proof (Hkind t Ht) as H1. pose proof (Hkind t' Ht') as H2.
  eapply sorted_handle_inj; [done..|].
  unfold timer_ok, is_hint_timer, is_ornament_timer in *.
  destruct (Timer.callback t), (Timer.callback t'), Hk as [[? ?]|[? ?]]; try done; congruence.
Qed.

Lemma one_timer_per_lineage_witness :
  ∃ w, run raw_go_rust ([Mount] ++ openPanel ++ closePanel ++ openPanel) (init 1000 0) = Some w ∧
       ∀ t, t ∈ timers w → is_ornament_timer t = true →
            t = Timer.mk 3 250 1250 OrnamentReveal.
Proof.
  eexists. split; [vm_compute; reflexivity|]. intros t Ht Ho.
  eapply (one_timer_per_lineage raw_go_rust 1000 0
            ([Mount] ++ openPanel ++ closePanel ++ openPanel));
    [vm_compute; reflexivity | exact Ht | vm_compute; left | by right].
Defined.

(** X11. While the component is mounted, the typing flag is only set
    while some reply timer waits: the indicator cannot stay on after the last
    reply has arrived. *)
Theorem typing_means_reply_pending `{JSString} (raw : Raw.t) (t0 : Z) (h0 : nat)
    (evs : list Event) (w : Widget) :
  run raw evs (init t0 h0) = Some w →
  phase w = Mounted → isTyping w = true →
  awaiting (timers w) ≠ [].
Proof.
  intros Hr. destruct (reachable_ok raw evs t0 h0 w Hr) as [_ Hs]. apply Hs.
Qed.

Lemma typing_means_reply_pending_witness :
  ∃ w, run raw_go_rust ([Mount] ++ openPanel ++ submit "skills") (init 1000 0) = Some w ∧
       awaiting (timers w) ≠ [].
Proof.
  eexists. split; [vm_compute; reflexivity|].
  eapply (typing_means_reply_pending raw_go_rust 1000 0
            ([Mount] ++ openPanel ++ submit "skills")); vm_compute; reflexivity.
Defined.

Lemma step_messages_prefix `{JSString} raw ev w w' :
  step raw ev w = Some w' → phase w ≠ Fresh →
  phase w' ≠ Fresh ∧ messages w `prefix_of` messages w'.
Proof.
  intros Hs Hp. destruct ev; simpl in Hs.
  - by destruct (phase w).
  - destruct (phase w) eqn:Hp'; try done. injection Hs as <-. by rewrite exec_unmount.
  - destruct (phase w) eqn:Hp'; try done. injection Hs as <-.
    destruct (decide (isOpen w = v)) as [Hv|Hv]; [by rewrite exec_setIsOpen_same, Hp'|].
    destruct v.
    + rewrite exec_open by (done || by destruct (isOpen w)). cbv zeta.
      destruct (showHint w); [destruct (hintTimerRef w) as [[|?]|]|]; simpl; by rewrite Hp'.
    + rewrite exec_close by (done || by destruct (isOpen w)). simpl. by rewrite Hp'.
  - destruct (phase w) eqn:Hp'; try done. injection Hs as <-.
    destruct (isOpen w) eqn:Ho; simpl.
    + rewrite exec_close by done. simpl. by rewrite Hp'.
    + rewrite exec_open by done. cbv zeta.
      destruct (showHint w); [destruct (hintTimerRef w) as [[|?]|]|]; simpl; by rewrite Hp'.
  - destruct (phase w) eqn:Hp'; try done. injection Hs as <-.
    rewrite exec_change by done. simpl. by rewrite Hp'.
  - destruct (phase w) eqn:Hp'; try done. injection Hs as <-.
    destruct (decide (trim (inputValue w) = "")) as [Hb|Hb].
    + rewrite exec_handleSend_blank by done. by rewrite Hp'.
    + rewrite exec_handleSend by done. simpl. rewrite Hp'. split; [done|].
      by apply prefix_app_r.
  - destruct (find_timer h (timers w)) as [t|]; [|done].
    destruct (runnable w t); [|done]. injection Hs as <-.
    rewrite exec_fire. cbv zeta.
    destruct (phase w) eqn:Hp'; [done| |simpl; by rewrite Hp'].
    destruct (Timer.callback t); simpl; rewrite Hp'; (split; [done|]); try done.
    by apply prefix_app_r.
  - case_bool_decide; [|done]. by injection Hs as <-.
Qed.

(** X12. Once the component has mounted the message log only grows at
    its end: whatever happens, the earlier log is a prefix of the later one. *)
Theorem log_is_append_only `{JSString} (raw : Raw.t) (evs : list Event) (w w' : Widget) :
  phase w ≠ Fresh → run raw evs w = Some w' →
  messages w `prefix_of` messages w'.
Proof.
  revert w. induction evs as [|ev evs IH]; intros w Hp; simpl.
  - by intros [= <-].
  - destruct (step raw ev w) as [w1|] eqn:Hs; [|done]. intros Hr.
    destruct (step_messages_prefix raw ev w w1 Hs Hp) as [Hp1 Hpre].
    etrans; [exact Hpre|]. by apply IH.
Qed.

Lemma log_is_append_only_witness :
  ∃ w w', run raw_go_rust ([Mount] ++ openPanel ++ submit "skills") (init 1000 0) = Some w ∧
          run raw_go_rust ([Advance 800; Fire 2; Fire 3] ++ closePanel) w = Some w' ∧
          messages w `prefix_of` messages w'.
Proof.
  eexists _, _. split; [vm_compute; reflexivity|]. split; [vm_compute; reflexivity|].
  eapply (log_is_append_only raw_go_rust ([Advance 800; Fire 2; Fire 3] ++ closePanel));
    [discriminate | vm_compute; reflexivity].
Defined.

(** X13. The log is ordered by time: no message carries a timestamp
    later than the clock, and none carries one earlier than a message
    before it. *)
Theorem log_is_ordered_by_time `{JSString} (raw : Raw.t) (t0 : Z) (h0 : nat)
    (evs : list Event) (w : Widget) :
  run raw evs (init t0 h0) = Some w →
  StronglySorted not_later (messages w) ∧
  Forall (λ m, Message.timestamp m ≤ now w) (messages w).
Proof.
  intros Hr. destruct (reachable_ok raw evs t0 h0 w Hr) as [_ Hs].
  split; apply Hs.
Qed.

Lemma log_is_ordered_by_time_witness :
  ∃ w, run raw_go_rust
         ([Mount] ++ openPanel ++ [Advance 40] ++ submit "skills" ++ [Advance 800; Fire 2; Fire 3])
         (init 1000 0) = Some w ∧
       map Message.timestamp (messages w) = [1000; 1040; 1840] ∧
       StronglySorted not_later (messages w).
Proof.
  eexists. split; [vm_compute; reflexivity|]. split; [reflexivity|].
  eapply (log_is_ordered_by_time raw_go_rust 1000 0
            ([Mount] ++ openPanel ++ [Advance 40] ++ submit "skills" ++ [Advance 800; Fire 2; Fire 3]));
    vm_compute; reflexivity.
Defined.



(** X15. Whenever the hint bubble is rendered on the mounted component,
    the panel is closed and the 5000 ms timer that [hintTimerRef] holds is
    still waiting, so the bubble is taken down when that timer runs. *)
Theorem hint_bubble_has_its_timer `{JSString} (raw : Raw.t) (t0 : Z) (h0 : nat)
    (evs : list Event) (w : Widget) :
  run raw evs (init t0 h0) = Some w →
  phase w = Mounted → hintBubble w = true →
  isOpen w = false ∧
  ∃ h due, hintTimerRef w = Some h ∧ Timer.mk h 5000 due HintExpire ∈ timers w.
Proof.
  intros Hr Hp Hb. destruct (reachable_ok raw evs t0 h0 w Hr) as [_ Hs].
  unfold hintBubble in Hb. apply andb_prop in Hb as [Hsh Ho].
  apply negb_true_iff in Ho. split; [done|].
  destruct (ok_hint_timer w Hs Hp Hsh) as (g & rest & h & Hm & Hh & Hin).
  by exists h, (Message.timestamp g + 5000).
Qed.

Lemma hint_bubble_has_its_timer_witness :
  ∃ w, run raw_go_rust [Mount; Advance 4999] (init 1000 0) = Some w ∧
       hintBubble w = true ∧ isOpen w = false.
Proof.
  eexists. split; [vm_compute; reflexivity|]. split; [reflexivity|].
  eapply (hint_bubble_has_its_timer raw_go_rust 1000 0 [Mount; Advance 4999]);
    vm_compute; reflexivity.
Defined.

(** ** The simulated thinking time *)

Lemma due_of_cons t l :
  due_of (t :: l) =
  match Timer.callback t with
  | Reply _ => Timer.due t :: due_of l
  | _ => due_of l
  end.
Proof. unfold due_of. simpl. by destruct (Timer.callback t). Qed.

Lemma due_of_snoc_reply l h ms d q :
  due_of (l ++ [Timer.mk h ms d (Reply q)]) = due_of l ++ [d].
Proof. unfold due_of. by rewrite omap_app. Qed.

Lemma due_of_snoc_other l t :
  is_reply_timer t = false → due_of (l ++ [t]) = due_of l.
Proof.
  intros Ht. unfold due_of. rewrite omap_app. simpl.
  unfold is_reply_timer in Ht. destruct (Timer.callback t); [| |done]; by rewrite app_nil_r.
Qed.

Lemma due_of_remove_other h l :
  Forall (λ t, Timer.handle t = h → is_reply_timer t = false) l →
  due_of (remove_timer h l) = due_of l.
Proof.
  induction 1 as [|t l Ht Hl IH]; [done|].
  rewrite remove_timer_cons. case_decide as Hh.
  - by rewrite !due_of_cons, IH.
  - specialize (Ht Hh). rewrite due_of_cons. unfold is_reply_timer in Ht.
    destruct (Timer.callback t); [exact IH | exact IH | done].
Qed.

Lemma due_of_clear n hr orn l r :
  table_ok n hr orn l → r = hr ∨ r = orn → due_of (clear_handle r l) = due_of l.
Proof.
  intros [_ _ _ Hk _ _] Hr. destruct r as [[|h]|]; [done| |done]. simpl.
  apply due_of_remove_other. eapply Forall_impl; [exact Hk|].
  intros t Ht Hh. unfold timer_ok, is_reply_timer in *.
  destruct (Timer.callback t); [done|done|]. destruct Ht as (H1 & H2 & _).
  destruct Hr; congruence.
Qed.

Lemma due_of_fire_other l t :
  StronglySorted earlier l → t ∈ l → is_reply_timer t = false →
  due_of (remove_timer (Timer.handle t) l) = due_of l.
Proof.
  intros Hs Ht Hr. apply due_of_remove_other.
  apply Forall_forall. intros t' Ht' Hh.
  by rewrite (sorted_handle_inj l t' t Hs Ht' Ht Hh).
Qed.

Lemma due_of_fire_reply l t q :
  StronglySorted earlier l →
  Forall (λ t', is_reply_timer t' = true → Timer.timeout t' = 800) l →
  t ∈ l → Timer.callback t = Reply q →
  existsb (blocks t) l = false →
  due_of l = Timer.due t :: due_of (remove_timer (Timer.handle t) l).
Proof.
  intros Hs Hk Ht Hq.
  assert (Timer.timeout t = 800) as Ht800.
  { rewrite Forall_forall in Hk. apply Hk; [done|]. unfold is_reply_timer. by rewrite Hq. }
  induction Hs as [|x l Hl IH Hx]; [by apply elem_of_nil in Ht|].
  cbn [existsb]. intros [Hbx Hbl]%orb_false_elim.
  apply Forall_cons in Hk as [Hkx Hkl].
  rewrite remove_timer_cons, due_of_cons.
  apply elem_of_cons in Ht as [<- | Ht].
  - rewrite decide_False by (intros Hc; by apply Hc).
    rewrite Hq, remove_timer_id; [done|].
    eapply Forall_impl; [exact Hx|]. unfold earlier. simpl. intros; lia.
  - assert (Timer.handle x < Timer.handle t)%nat as Hlt.
    { rewrite Forall_forall in Hx. by apply Hx. }
    rewrite decide_True by lia.
    assert (is_reply_timer x = false) as Hxr.
    { destruct (is_reply_timer x) eqn:Hxr; [|done].
      specialize (Hkx eq_refl). unfold blocks in Hbx.
      rewrite bool_decide_eq_true_2 in Hbx by done.
      rewrite bool_decide_eq_true_2 in Hbx by lia. done. }
    specialize (IH Hkl Ht Hbl). rewrite due_of_cons.
    unfold is_reply_timer in Hxr.
    destruct (Timer.callback x); [exact IH | exact IH | done].
Qed.

Lemma asked_at_snoc_user ms i q t :
  asked_at (ms ++ [Message.mk i q user t]) = asked_at ms ++ [t].
Proof. unfold asked_at. by rewrite omap_app. Qed.

Lemma asked_at_snoc_bot ms i r t :
  asked_at (ms ++ [Message.mk i r bot t]) = asked_at ms.
Proof. unfold asked_at. rewrite omap_app. simpl. by rewrite app_nil_r. Qed.

Lemma replied_at_snoc_user ms i q t :
  replied_at (ms ++ [Message.mk i q user t]) = replied_at ms.
Proof. unfold replied_at, bot_messages. rewrite List.filter_app. simpl. by rewrite app_nil_r. Qed.

Lemma replied_at_snoc_bot ms m rest i r t :
  ms = m :: rest → Message.sender m = bot →
  replied_at (ms ++ [Message.mk i r bot t]) = replied_at ms ++ [t].
Proof.
  intros -> Hm. unfold replied_at, bot_messages. rewrite List.filter_app. simpl.
  rewrite Hm. simpl. by rewrite map_app.
Qed.

Section Delays.
Context `{JSString} (raw : Raw.t).

Lemma delays_frame w w' :
  delays_ok w → messages w' = messages w → due_of (timers w') = due_of (timers w) →
  delays_ok w'.
Proof. intros (a & Ha & Hf) Hm Hd. exists a. by rewrite Hm, Hd. Qed.

Lemma step_delays ev w w' :
  step raw ev w = Some w' → widget_ok raw w →
  (phase w = Mounted → delays_ok w) → (phase w' = Mounted → delays_ok w').
Proof.
  intros Hs Hok Hd. pose proof (ok_table raw w Hok) as Htab. destruct ev; simpl in Hs.
  - destruct (phase w) eqn:Hp; try done.
    destruct (buildKnowledgeBase raw) as [kb|] eqn:Hb; [|done]. injection Hs as <-.
    destruct (ok_fresh_init raw w Hok Hp) as [h0 ->]. rewrite exec_mount. intros _.
    exists []. split; [done | constructor].
  - destruct (phase w) eqn:Hp; try done. injection Hs as <-. by rewrite exec_unmount.
  - destruct (phase w) eqn:Hp; try done. injection Hs as <-. intros _.
    specialize (Hd eq_refl).
    assert (due_of (clear_handle (ornamentT w) (timers w)) = due_of (timers w)) as Ha
      by (eapply due_of_clear; [done | by right]).
    destruct (decide (isOpen w = v)) as [Hv|Hv]; [by rewrite exec_setIsOpen_same|].
    destruct v.
    + assert (isOpen w = false) as Hc by (by destruct (isOpen w)).
      assert (table_ok (S (nextHandle w)) (hintTimerRef w) (Some (nextHandle w))
                (clear_handle (ornamentT w) (timers w) ++
                 [Timer.mk (nextHandle w) 250 (now w + 250) OrnamentReveal])) as Ht2.
      { by apply table_ok_snoc_orn, table_ok_no_orn. }
      rewrite exec_open by done. cbv zeta.
      destruct (showHint w); [destruct (hintTimerRef w) as [[|h]|] eqn:Hh'|].
      all: eapply delays_frame; [done | done | simpl].
      all: try by rewrite due_of_snoc_other, Ha.
      pose proof (due_of_clear _ _ _ _ (Some (S h)) Ht2 (or_introl eq_refl)) as Hah.
      simpl in Hah. by rewrite Hah, due_of_snoc_other, Ha.
    + rewrite exec_close by (done || by destruct (isOpen w)).
      by eapply delays_frame.
  - destruct (phase w) eqn:Hp; try done. injection Hs as <-. intros _.
    specialize (Hd eq_refl).
    assert (due_of (clear_handle (ornamentT w) (timers w)) = due_of (timers w)) as Ha
      by (eapply due_of_clear; [done | by right]).
    destruct (isOpen w) eqn:Hc; simpl.
    + rewrite exec_close by done. by eapply delays_frame.
    + assert (table_ok (S (nextHandle w)) (hintTimerRef w) (Some (nextHandle w))
                (clear_handle (ornamentT w) (timers w) ++
                 [Timer.mk (nextHandle w) 250 (now w + 250) OrnamentReveal])) as Ht2.
      { by apply table_ok_snoc_orn, table_ok_no_orn. }
      rewrite exec_open by done. cbv zeta.
      destruct (showHint w); [destruct (hintTimerRef w) as [[|h]|] eqn:Hh'|].
      all: eapply delays_frame; [done | done | simpl].
      all: try by rewrite due_of_snoc_other, Ha.
      pose proof (due_of_clear _ _ _ _ (Some (S h)) Ht2 (or_introl eq_refl)) as Hah.
      simpl in Hah. by rewrite Hah, due_of_snoc_other, Ha.
  - destruct (phase w) eqn:Hp; try done. injection Hs as <-. intros _.
    rewrite exec_change by done. by eapply delays_frame; [apply Hd|..].
  - destruct (phase w) eqn:Hp; try done. injection Hs as <-. intros _.
    destruct (Hd eq_refl) as (a & Ha & Hf).
    destruct (decide (trim (inputValue w) = "")) as [Hb|Hb].
    + rewrite exec_handleSend_blank by done. by exists a.
    + rewrite exec_handleSend by done. exists a. simpl.
      rewrite asked_at_snoc_user, replied_at_snoc_user, due_of_snoc_reply, map_app, Ha.
      split; [by rewrite app_assoc | done].
  - destruct (find_timer h (timers w)) as [t|] eqn:Hf; [|done].
    destruct (runnable w t) eqn:Hrun; [|done]. injection Hs as <-.
    apply find_timer_elem in Hf as [Ht <-].
    rewrite exec_fire. cbv zeta.
    destruct (phase w) eqn:Hp;
      [|destruct (Hd eq_refl) as (a & Ha & Hfa)|by (simpl; rewrite Hp)].
    { destruct (ok_fresh_init raw w Hok Hp) as [h0 Hw]. rewrite Hw in Ht.
      by apply elem_of_nil in Ht. }
    destruct (ok_conversation raw w Hok Hp) as [(g0 & rest0 & Hm0 & Hs0) _ _].
    destruct (Timer.callback t) as [| |q] eqn:Hcb; intros _.
    + eapply delays_frame; [by exists a | done | simpl].
      apply due_of_fire_other; [apply Htab | done |]. unfold is_reply_timer. by rewrite Hcb.
    + eapply delays_frame; [by exists a | done | simpl].
      apply due_of_fire_other; [apply Htab | done |]. unfold is_reply_timer. by rewrite Hcb.
    + unfold runnable in Hrun. apply andb_prop in Hrun as [Hdue Hblk].
      apply bool_decide_eq_true_1 in Hdue. apply negb_true_iff in Hblk.
      assert (due_of (timers w) =
              Timer.due t :: due_of (remove_timer (Timer.handle t) (timers w))) as Hq.
      { apply (due_of_fire_reply _ _ q); [apply Htab| |done|done|done].
        eapply Forall_impl; [exact (ok_kind _ _ _ _ Htab)|]. intros t' Hk Hr'.
        unfold timer_ok, is_reply_timer in *.
        destruct (Timer.callback t'); [done | done | apply Hk]. }
      exists (a ++ [Timer.due t]). simpl.
      rewrite asked_at_snoc_bot, (replied_at_snoc_bot _ g0 rest0) by done.
      rewrite Ha, Hq. split; [by rewrite <- app_assoc|].
      apply Forall2_app; [done|]. by constructor.
  - case_bool_decide; [|done]. injection Hs as <-. simpl. intros Hp.
    by eapply delays_frame; [apply Hd|..].
Qed.

Lemma run_delays evs w w' :
  run raw evs w = Some w' → widget_ok raw w →
  (phase w = Mounted → delays_ok w) → (phase w' = Mounted → delays_ok w').
Proof.
  revert w. induction evs as [|ev evs IH]; intros w; simpl.
  - by intros [= <-].
  - destruct (step raw ev w) as [w1|] eqn:Hs; [|done].
    intros Hr Hok Hd. eapply IH; [done | by eapply step_ok | by eapply step_delays].
Qed.

End Delays.

(** X16. A reply never arrives early: in the mounted component the k-th
    reply in the log was created at least 800 ms after the k-th user
    message. *)
Theorem replies_wait_800ms `{JSString} (raw : Raw.t) (t0 : Z) (h0 : nat)
    (evs : list Event) (w : Widget) (k : nat) (asked_k replied_k : Z) :
  run raw evs (init t0 h0) = Some w → phase w = Mounted →
  asked_at (messages w) !! k = Some asked_k →
  replied_at (messages w) !! k = Some replied_k →
  asked_k + 800 ≤ replied_k.
Proof.
  intros Hr Hp Ha Hre.
  destruct (run_delays raw evs (init t0 h0) w Hr (init_ok raw t0 h0)) as (a & Heq & Hf);
    [done | done |].
  destruct (Forall2_lookup_r _ _ _ _ _ Hf Hre) as (d & Hd & Hle).
  assert ((map (λ t, t + 800) (asked_at (messages w))) !! k = Some d) as Hk.
  { rewrite Heq. by apply lookup_app_l_Some. }
  rewrite list_lookup_fmap, Ha in Hk. simpl in Hk. injection Hk as <-. done.
Qed.

Lemma replies_wait_800ms_witness :
  ∃ w, run raw_go_rust
         ([Mount] ++ openPanel ++ [Advance 40] ++ submit "skills" ++ [Advance 900; Fire 2; Fire 3])
         (init 1000 0) = Some w ∧
       asked_at (messages w) = [1040] ∧ replied_at (messages w) = [1940] ∧
       1040 + 800 ≤ 1940.
Proof.
  eexists. split; [vm_compute; reflexivity|]. split; [reflexivity|]. split; [reflexivity|].
  eapply (replies_wait_800ms raw_go_rust 1000 0
            ([Mount] ++ openPanel ++ [Advance 40] ++ submit "skills" ++
             [Advance 900; Fire 2; Fire 3]) _ 0%nat);
    vm_compute; reflexivity.
Defined.

(** ** The send button and the Enter key *)

Lemma trim_empty `{JSString} : trim "" = "".
Proof. by rewrite trim_ascii. Qed.

Lemma handleSend_changes `{JSString} w :
  phase w = Mounted → trim (inputValue w) ≠ "" → exec handleSend w ≠ w.
Proof.
  intros Hp Hb He. apply (f_equal messages) in He. rewrite exec_handleSend in He by done.
  simpl in He. apply (f_equal length) in He. rewrite length_app in He. simpl in He. lia.
Qed.

Lemma sendDisabled_true `{JSString} w : sendDisabled w = true ↔ trim (inputValue w) = "".
Proof. unfold sendDisabled. by rewrite String.eqb_eq. Qed.

Lemma sendDisabled_false `{JSString} w : sendDisabled w = false ↔ trim (inputValue w) ≠ "".
Proof. unfold sendDisabled. by rewrite String.eqb_neq. Qed.

Lemma exec_handleKeyPress `{JSString} e w :
  exec (handleKeyPress e) w =
  if String.eqb (KeyboardEvent.key e) "Enter" && negb (KeyboardEvent.shiftKey e)
  then exec handleSend w else w.
Proof.
  unfold handleKeyPress.
  destruct (String.eqb (KeyboardEvent.key e) "Enter" && negb (KeyboardEvent.shiftKey e));
    [|done].
  unfold exec, mbind, M_bind, mret, M_ret. by destruct (handleSend w).
Qed.

(** X17. The send button is disabled exactly when [handleSend] would do
    nothing, and sending always leaves it disabled: the input is empty
    afterwards, whether or not a message was sent. *)
Theorem send_button_tracks_handleSend `{JSString} (w : Widget) :
  phase w = Mounted →
  (sendDisabled w = true ↔ exec handleSend w = w) ∧
  (sendDisabled w = false → inputValue (exec handleSend w) = "") ∧
  sendDisabled (exec handleSend w) = true.
Proof.
  intros Hp. split_and!.
  - rewrite sendDisabled_true. split; [apply exec_handleSend_blank|].
    intros He. destruct (decide (trim (inputValue w) = "")) as [|Hb]; [done|].
    by destruct (handleSend_changes w Hp Hb).
  - intros Hb%sendDisabled_false. by rewrite exec_handleSend.
  - destruct (decide (trim (inputValue w) = "")) as [Hb|Hb].
    + rewrite exec_handleSend_blank by done. by apply sendDisabled_true.
    + rewrite exec_handleSend by done. apply sendDisabled_true. simpl. apply trim_empty.
Qed.

Lemma send_button_tracks_handleSend_witness :
  ∃ w, run raw_go_rust ([Mount] ++ openPanel ++ [Change "skills"]) (init 1000 0) = Some w ∧
       sendDisabled w = false ∧ sendDisabled (exec handleSend w) = true.
Proof.
  eexists. split; [vm_compute; reflexivity|]. split; [reflexivity|].
  eapply send_button_tracks_handleSend. reflexivity.
Defined.

(** X18. A key press calls [preventDefault] exactly when the key is Enter
    without Shift, also on a blank input; it changes the component exactly
    when, in addition, the send button is enabled, and then it does what a
    click on the send button does. *)
Theorem enter_sends_unless_shifted `{JSString} (e : KeyboardEvent.t) (w : Widget) :
  phase w = Mounted →
  ((handleKeyPress e w).1 = true ↔
     KeyboardEvent.key e = "Enter" ∧ KeyboardEvent.shiftKey e = false) ∧
  (exec (handleKeyPress e) w ≠ w ↔
     KeyboardEvent.key e = "Enter" ∧ KeyboardEvent.shiftKey e = false ∧
     sendDisabled w = false) ∧
  (exec (handleKeyPress e) w ≠ w → exec (handleKeyPress e) w = exec handleSend w).
Proof.
  intros Hp. rewrite exec_handleKeyPress. unfold handleKeyPress.
  destruct (String.eqb_spec (KeyboardEvent.key e) "Enter") as [Hk|Hk];
    destruct (KeyboardEvent.shiftKey e) eqn:Hs; simpl.
  all: split_and!; try done; try (split; [done | by intros []]);
    try (split; [done | by intros (? & ? & ?)]).
  - unfold mbind, M_bind, mret, M_ret. by destruct (handleSend w).
  - split.
    + intros Hne. split_and!; try done.
      destruct (sendDisabled w) eqn:Hd; [|done].
      apply sendDisabled_true in Hd. by rewrite exec_handleSend_blank in Hne.
    + intros (_ & _ & Hd%sendDisabled_false). by apply handleSend_changes.
Qed.

Lemma enter_sends_unless_shifted_witness :
  ∃ w, run raw_go_rust ([Mount] ++ openPanel ++ [Change "skills"]) (init 1000 0) = Some w ∧
       exec (handleKeyPress (KeyboardEvent.mk "Enter" false)) w ≠ w ∧
       exec (handleKeyPress (KeyboardEvent.mk "Enter" true)) w = w.
Proof.
  eexists. split; [vm_compute; reflexivity|]. split; [|reflexivity].
  eapply (enter_sends_unless_shifted (KeyboardEvent.mk "Enter" false)); [reflexivity|].
  split_and!; reflexivity.
Defined.

(** ** After unmounting *)

(** X19. Unmounting a component that was reached from the initial state
    cancels the hint timer and the ornament timer and nothing else: only
    reply timers are left, and they are the same reply timers as before. *)
Theorem unmount_cancels_hint_and_ornament `{JSString} (raw : Raw.t) (t0 : Z) (h0 : nat)
    (evs : list Event) (w w' : Widget) :
  run raw evs (init t0 h0) = Some w → step raw Unmount w = Some w' →
  phase w' = Unmounted ∧
  Forall (λ t, is_reply_timer t = true) (timers w') ∧
  awaiting (timers w') = awaiting (timers w) ∧
  messages w' = messages w.
Proof.
  intros Hr Hs.
  assert (widget_ok raw w) as Hok by (eapply run_ok; [exact Hr | apply init_ok]).
  destruct (unmount_leaves_only_replies raw w w' Hok Hs) as [Hp Hf].
  split_and!; [done | done | by eapply unmount_keeps_reply_timers |].
  simpl in Hs. destruct (phase w); try done. injection Hs as <-. by rewrite exec_unmount.
Qed.

Lemma unmount_cancels_hint_and_ornament_witness :
  ∃ w w', run raw_go_rust ([Mount] ++ openPanel ++ closePanel ++ openPanel ++ submit "skills")
            (init 1000 0) = Some w ∧
          step raw_go_rust Unmount w = Some w' ∧
          map Timer.callback (timers w) = [OrnamentReveal; Reply "skills"] ∧
          map Timer.callback (timers w') = [Reply "skills"] ∧
          awaiting (timers w') = awaiting (timers w).
Proof.
  eexists _, _. split; [vm_compute; reflexivity|]. split; [vm_compute; reflexivity|].
  split; [reflexivity|]. split; [reflexivity|].
  eapply (unmount_cancels_hint_and_ornament raw_go_rust 1000 0
            ([Mount] ++ openPanel ++ closePanel ++ openPanel ++ submit "skills"));
    vm_compute; reflexivity.
Defined.



(** ** The greeting *)

Lemma greeting_first_step `{JSString} raw ev w w' :
  step raw ev w = Some w' → widget_ok raw w →
  (phase w ≠ Fresh → ∃ t rest, messages w = greeting raw t :: rest) →
  (phase w' ≠ Fresh → ∃ t rest, messages w' = greeting raw t :: rest).
Proof.
  intros Hs Hok Hg.
  assert (phase w = Fresh ∨ phase w ≠ Fresh) as [Hp|Hp]
    by (destruct (phase w); [by left | by right | by right]).
  - destruct (ok_fresh_init raw w Hok Hp) as [h0 Hw].
    destruct ev; simpl in Hs; rewrite ?Hp in Hs; try done.
    + destruct (buildKnowledgeBase raw) as [kb|]; [|done]. injection Hs as <-.
      rewrite Hw, exec_mount. simpl. intros _. by eexists _, _.
    + destruct (find_timer h (timers w)) as [t|] eqn:Hf; [|done].
      apply find_timer_elem in Hf as [Ht _]. rewrite Hw in Ht. by apply elem_of_nil in Ht.
    + case_bool_decide; [|done]. injection Hs as <-. simpl. by rewrite Hp.
  - destruct (step_messages_prefix raw ev w w' Hs Hp) as [Hp' [k Hk]].
    intros _. destruct (Hg Hp) as (t & rest & Hm).
    exists t, (rest ++ k). by rewrite Hk, Hm.
Qed.

(** X21. The greeting is the first message from the moment the component
    mounts and stays the first message for good; it names the hero, or
    "Ankush" when the data has no hero or no hero name. *)
Theorem greeting_stays_first `{JSString} (raw : Raw.t) (t0 : Z) (h0 : nat)
    (evs : list Event) (w : Widget) :
  run raw evs (init t0 h0) = Some w → phase w ≠ Fresh →
  ∃ t rest,
    messages w = greeting raw t :: rest ∧ t ≤ now w ∧
    Message.id (greeting raw t) = "1" ∧ Message.sender (greeting raw t) = bot ∧
    ∃ name,
      Message.text (greeting raw t) =
        Some ("Hi! 👋 I'm " +:+ name +:+
              "'s AI assistant. Ask me anything about skills, experience, projects, or contact details.") ∧
      match Data.hero raw with
      | Some h => match Hero.name h with Some n => name = n | None => name = "Ankush" end
      | None => name = "Ankush"
      end.
Proof.
  intros Hr Hp.
  assert (∀ evs w0, run raw evs w0 = Some w → widget_ok raw w0 →
            (phase w0 ≠ Fresh → ∃ t rest, messages w0 = greeting raw t :: rest) →
            phase w ≠ Fresh → ∃ t rest, messages w = greeting raw t :: rest) as Hrun.
  { clear. intros evs. induction evs as [|ev evs IH]; intros w0; simpl.
    - intros [= <-] _ Hg. exact Hg.
    - destruct (step raw ev w0) as [w1|] eqn:Hs; [|done]. intros Hr Hok Hg.
      eapply IH; [done | by eapply step_ok | by eapply greeting_first_step]. }
  destruct (Hrun evs (init t0 h0) Hr (init_ok raw t0 h0)) as (t & rest & Hm); [done|done|].
  destruct (reachable_ok raw evs t0 h0 w Hr) as [_ Hs].
  pose proof (ok_stamps w Hs) as Hst. rewrite Hm in Hst. apply Forall_cons in Hst as [Ht _].
  exists t, rest. split_and!; try done.
  unfold greeting. simpl. eexists. split; [reflexivity|].
  destruct (Data.hero raw) as [h|]; [|done]. simpl. by destruct (Hero.name h).
Qed.

Lemma greeting_stays_first_witness :
  ∃ w, run raw_go_rust
         ([Mount] ++ openPanel ++ [Advance 40] ++ submit "skills" ++ [Advance 800; Fire 2; Fire 3])
         (init 1000 0) = Some w ∧
       length (messages w) = 3%nat ∧
       ∃ t rest, messages w = greeting raw_go_rust t :: rest ∧ t ≤ now w.
Proof.
  eexists. split; [vm_compute; reflexivity|]. split; [reflexivity|].
  match goal with
  | |- ∃ t rest, messages ?a = _ ∧ _ =>
      destruct (greeting_stays_first raw_go_rust 1000 0
                  ([Mount] ++ openPanel ++ [Advance 40] ++ submit "skills" ++
                   [Advance 800; Fire 2; Fire 3]) a) as (t & rest & Hm & Ht & _)
  end; [vm_compute; reflexivity | discriminate |].
  by exists t, rest.
Defined.
